(** * Weather MCP server and widget: the weather composer

    A shallow embedding of the weather flow of the repository:
    - the MCP route of the weather server ([wmoWeatherCodeToText],
      [fetchJsonOrThrow], [getWeatherForCity] and the [get_weather] tool
      handler), in [Module Route];
    - the widget page ([wmoWeatherCodeToText], [fetchWeatherOpenMeteo]),
      in [Module Page].

    JavaScript strings are sequences of UTF-16 code units, promises are
    computations that either return or throw and that log every outbound
    [fetch], and the two upstream services are oracles from URLs to
    responses. *)

From Stdlib Require Import List NArith ZArith Bool String Ascii Lia DecimalString.
Import ListNotations.

Set Implicit Arguments.

(** ** JavaScript strings *)

(** A string is its sequence of UTF-16 code units. *)
Definition jsstring := list N.

(** An ASCII literal of the source, one code unit per character. *)
Definition lit (s : string) : jsstring :=
  map N_of_ascii (list_ascii_of_string s).

(** ECMAScript [WhiteSpace] and [LineTerminator] code units, the ones
    [String.prototype.trim] strips. *)
Definition isWhiteSpace (c : N) : bool :=
  ((9 <=? c) && (c <=? 13)              (* TAB, LF, VT, FF, CR *)
   || (c =? 32)                          (* SP *)
   || (c =? 160)                         (* NBSP *)
   || (c =? 5760)                        (* U+1680 *)
   || ((8192 <=? c) && (c <=? 8202))     (* U+2000 .. U+200A *)
   || (c =? 8232) || (c =? 8233)         (* LS, PS *)
   || (c =? 8239) || (c =? 8287)         (* U+202F, U+205F *)
   || (c =? 12288)                       (* U+3000 *)
   || (c =? 65279))%N.                   (* ZWNBSP *)

Fixpoint trimStart (s : jsstring) : jsstring :=
  match s with
  | [] => []
  | c :: rest => if isWhiteSpace c then trimStart rest else s
  end.

Definition trimEnd (s : jsstring) : jsstring :=
  rev (trimStart (rev s)).

(** [s.trim()] *)
Definition trim (s : jsstring) : jsstring :=
  trimEnd (trimStart s).

(** [!s] on a string: only the empty string is falsy. *)
Definition falsy (s : jsstring) : bool :=
  match s with [] => true | _ :: _ => false end.

(** [parts.join(sep)] *)
Fixpoint join (sep : jsstring) (parts : list jsstring) : jsstring :=
  match parts with
  | [] => []
  | [p] => p
  | p :: more => p ++ sep ++ join sep more
  end.

(** [`${n}`] for a non-negative integer such as an HTTP status. *)
Definition decimal (n : N) : jsstring :=
  lit (NilZero.string_of_uint (N.to_uint n)).

(** The text [needle] occurs in [s]. *)
Definition includes (s needle : jsstring) : Prop :=
  exists before after, s = before ++ needle ++ after.

(** [s.startsWith(needle)] *)
Fixpoint startsWith (s needle : jsstring) {struct needle} : bool :=
  match needle, s with
  | [], _ => true
  | _ :: _, [] => false
  | n :: needle', c :: s' => (c =? n)%N && startsWith s' needle'
  end.

(** [s.includes(needle)], by trying every position *)
Fixpoint includesb (s needle : jsstring) : bool :=
  startsWith s needle
  || match s with
     | [] => false
     | _ :: s' => includesb s' needle
     end.

(** ** Optional values *)

(** [o?.f] *)
Definition chain {A B : Type} (o : option A) (f : A -> option B) : option B :=
  match o with
  | Some a => f a
  | None => None
  end.

(** [o ?? d] with a default that is always there *)
Definition nullish {A : Type} (o : option A) (d : A) : A :=
  match o with
  | Some a => a
  | None => d
  end.

(** [o ?? p] with a fallback that may itself be missing *)
Definition nullish_opt {A : Type} (o p : option A) : option A :=
  match o with
  | Some a => Some a
  | None => p
  end.

(** [xs?.[0]] *)
Definition first {A : Type} (xs : option (list A)) : option A :=
  chain xs (fun l => nth_error l 0).

(** [`${o}`] of a value that may be [undefined] *)
Definition template (o : option jsstring) : jsstring :=
  nullish o (lit "undefined").

Notation "o ?. f" := (chain o f) (at level 49, left associativity).

(** ** Thrown values, promises and the network *)

(** What a [catch] handler receives: an [Error] with its message, or some
    other value. *)
Inductive thrown : Type :=
| ErrorObject (message : jsstring)
| NotAnError.

Inductive completion (A : Type) : Type :=
| Returned (a : A)
| Threw (e : thrown).
Arguments Threw {A} e.

(** A response of [fetch]: the status and what [text()] and [json()]
    settle to.  [T] is the type the source casts the JSON body to. *)
Record Response (T : Type) : Type := {
  status : N;
  text : completion jsstring;
  json : completion T
}.

(** [res.ok]: the status is in the range 200-299. *)
Definition ok {T : Type} (res : Response T) : bool :=
  ((200 <=? status res) && (status res <=? 299))%N.

(** An async computation: it is given the log of the URLs fetched so far
    and settles with a completion and the extended log. *)
Definition Async (A : Type) : Type :=
  list jsstring -> completion A * list jsstring.

Definition ret {A : Type} (a : A) : Async A :=
  fun log => (Returned a, log).

Definition throw {A : Type} (e : thrown) : Async A :=
  fun log => (Threw e, log).

Definition bind {A B : Type} (m : Async A) (k : A -> Async B) : Async B :=
  fun log =>
    match m log with
    | (Returned a, log') => k a log'
    | (Threw e, log') => (Threw e, log')
    end.

(** [m.catch(h)] and [try { m } catch (e) { h e }] *)
Definition catch {A : Type} (m : Async A) (h : thrown -> Async A) : Async A :=
  fun log =>
    match m log with
    | (Returned a, log') => (Returned a, log')
    | (Threw e, log') => h e log'
    end.

(** Awaiting something that settles without touching the network. *)
Definition settle {A : Type} (c : completion A) : Async A :=
  fun log => (c, log).

(** [await fetch(url, ...)] against an upstream service: the call is
    logged, then the promise rejects or resolves as the service says. *)
Definition fetch {T : Type} (service : jsstring -> completion (Response T))
    (url : jsstring) : Async (Response T) :=
  fun log => (service url, log ++ [url]).

(** A whole invocation starts from an empty log. *)
Definition run {A : Type} (m : Async A) : completion A * list jsstring :=
  m [].

Declare Scope async_scope.
Delimit Scope async_scope with async.
Notation "x <- m ;; k" := (bind m (fun x => k))
  (at level 61, m at next level, right associativity) : async_scope.

(** [e instanceof Error ? e.message : fallback] *)
Definition messageOr (e : thrown) (fallback : jsstring) : jsstring :=
  match e with
  | ErrorObject message => message
  | NotAnError => fallback
  end.

(** [encodeURIComponent]: unreserved characters are kept, every other
    code point is written as the percent-escapes of its UTF-8 bytes, and a
    lone surrogate throws a [URIError]. *)
Definition unreserved (c : N) : bool :=
  ((65 <=? c) && (c <=? 90) || (97 <=? c) && (c <=? 122)
   || (48 <=? c) && (c <=? 57)
   || existsb (N.eqb c) [45; 95; 46; 33; 126; 42; 39; 40; 41])%N.

Definition hexDigit (d : N) : N :=
  (if d <? 10 then 48 + d else 55 + d)%N.

Definition percent (byte : N) : jsstring :=
  [37; hexDigit (byte / 16); hexDigit (byte mod 16)]%N.

Definition utf8 (cp : N) : list N :=
  (if cp <? 128 then [cp]
   else if cp <? 2048 then [192 + cp / 64; 128 + cp mod 64]
   else if cp <? 65536 then
     [224 + cp / 4096; 128 + (cp / 64) mod 64; 128 + cp mod 64]
   else
     [240 + cp / 262144; 128 + (cp / 4096) mod 64;
      128 + (cp / 64) mod 64; 128 + cp mod 64])%N.

Definition URIError : thrown := ErrorObject (lit "URI malformed").

Definition prepend (p : jsstring) (c : completion jsstring)
  : completion jsstring :=
  match c with
  | Returned s => Returned (p ++ s)
  | Threw e => Threw e
  end.

Fixpoint encodeURIComponent (s : jsstring) : completion jsstring :=
  match s with
  | [] => Returned []
  | c :: rest =>
    if unreserved c then prepend [c] (encodeURIComponent rest)
    else if ((c <? 55296) || (57343 <? c))%N then
      prepend (flat_map percent (utf8 c)) (encodeURIComponent rest)
    else if (56320 <=? c)%N then Threw URIError
    else
      match rest with
      | d :: rest' =>
        if ((56320 <=? d) && (d <=? 57343))%N then
          prepend
            (flat_map percent
               (utf8 (65536 + (c - 55296) * 1024 + (d - 56320))%N))
            (encodeURIComponent rest')
        else Threw URIError
      | [] => Threw URIError
      end
  end.

(** ** The upstream JSON bodies and the structured result *)

Section Data.

(** A JavaScript number that the composer only passes along
    (coordinates, temperatures, wind speeds, percentages). *)
Variable number : Type.

(** An entry of [results] of the geocoding response, [best] in the
    source, with the fields the composers read. *)
Record GeocodingResult : Type := {
  name : jsstring;
  latitude : number;
  longitude : number;
  country : option jsstring;
  admin1 : option jsstring;
  timezone : option jsstring
}.

Record OpenMeteoGeocodingResponse : Type := {
  results : option (list GeocodingResult)
}.

(** [forecast.current]; the weather code is an integer WMO code. *)
Record ForecastCurrent : Type := {
  time : option jsstring;
  temperature_2m : option number;
  weather_code : option Z;
  wind_speed_10m : option number
}.

(** [forecast.daily] *)
Record ForecastDaily : Type := {
  daily_time : option (list jsstring);
  temperature_2m_max : option (list number);
  temperature_2m_min : option (list number);
  precipitation_probability_max : option (list number)
}.

(** [forecast.current_units] *)
Record ForecastUnits : Type := {
  unit_temperature_2m : option jsstring;
  unit_wind_speed_10m : option jsstring
}.

(** The forecast response, every part optional as the composers treat
    it ([?.] and [??] on each access). *)
Record OpenMeteoForecastResponse : Type := {
  fc_timezone : option jsstring;
  fc_current : option ForecastCurrent;
  fc_daily : option ForecastDaily;
  fc_current_units : option ForecastUnits
}.

(** [WeatherStructuredContent] of the widget page: the payload contract
    between the tool and the widget. *)
Record Location : Type := {
  loc_name : jsstring;
  loc_latitude : number;
  loc_longitude : number;
  loc_timezone : option jsstring
}.

Record Current : Type := {
  cur_time : option jsstring;
  temperature : option number;
  temperatureUnit : option jsstring;
  windSpeed : option number;
  windSpeedUnit : option jsstring;
  weatherCode : option Z;
  conditions : option jsstring
}.

Record Today : Type := {
  date : option jsstring;
  high : option number;
  low : option number;
  precipitationChance : option number;
  precipitationChanceUnit : option jsstring
}.

Record Weather : Type := {
  query : jsstring;
  source : jsstring;
  location : Location;
  current : Current;
  today : Today
}.

Inductive WeatherStructuredContent : Type :=
| weather (w : Weather)
| weather_error (query error : jsstring).

Definition kind (c : WeatherStructuredContent) : jsstring :=
  match c with
  | weather _ => lit "weather"
  | weather_error _ _ => lit "weather_error"
  end.

(** What the composer runs on: the conversions of the numbers it
    passes along and the two upstream services it fetches from. *)
Record Host : Type := {
  toString : number -> jsstring;                       (* [`${n}`] *)
  Math_round : number -> number;
  geocoding :
    jsstring -> completion (Response OpenMeteoGeocodingResponse);
  forecast :
    jsstring -> completion (Response OpenMeteoForecastResponse)
}.

End Data.

Arguments weather_error {number} query error.

(** The double quote, for template literals that contain it. *)
Definition dquote : jsstring := [34%N].

(** [[a, b, c].filter(Boolean).join(", ")] on strings that may be missing:
    [undefined] and the empty string are falsy. *)
Definition truthy_strings (xs : list (option jsstring)) : list jsstring :=
  flat_map (fun x => match x with
                     | Some (c :: s) => [c :: s]
                     | _ => []
                     end) xs.

Definition geocodingUrl (encoded : jsstring) : jsstring :=
  lit "https://geocoding-api.open-meteo.com/v1/search?name=" ++ encoded
  ++ lit "&count=1&language=en&format=json".

Definition forecastUrl (lat lon : jsstring) : jsstring :=
  lit "https://api.open-meteo.com/v1/forecast?latitude=" ++ lat
  ++ lit "&longitude=" ++ lon
  ++ lit "&current=temperature_2m,weather_code,wind_speed_10m&daily=temperature_2m_max,temperature_2m_min,precipitation_probability_max&timezone=auto".

Definition notFoundMessage (trimmed : jsstring) : jsstring :=
  lit "Couldn't find a location for " ++ dquote ++ trimmed ++ dquote
  ++ lit ". Try including a country/state (e.g. " ++ dquote
  ++ lit "Paris, France" ++ dquote ++ lit ").".

(** ** Untyped JavaScript values *)

(** [a === b] on strings *)
Fixpoint jsstring_eqb (a b : jsstring) : bool :=
  match a, b with
  | [], [] => true
  | x :: a', y :: b' => (x =? y)%N && jsstring_eqb a' b'
  | _, _ => false
  end.

Section Values.

Variable number : Type.

(** A value of type [unknown], as the widget receives it from its host.
    An object is the list of its own properties, each name once.  A
    number is either an integer or one of the opaque numbers of the
    composer. *)
Unset Elimination Schemes.
Inductive value : Type :=
| VUndefined
| VNull
| VBoolean (b : bool)
| VInt (z : Z)
| VNumber (n : number)
| VString (s : jsstring)
| VArray (items : list value)
| VObject (props : list (jsstring * value)).
Set Elimination Schemes.

Fixpoint lookup (props : list (jsstring * value)) (key : jsstring) : value :=
  match props with
  | [] => VUndefined
  | (k, v) :: more => if jsstring_eqb k key then v else lookup more key
  end.

(** [v?.key] for the names the widget reads ([result],
    [structuredContent], [kind]): [undefined] on [null] and [undefined],
    the own property of an object, and [undefined] on a primitive or an
    array, which have no property of these names. *)
Definition optProp (v : value) (key : jsstring) : value :=
  match v with
  | VObject props => lookup props key
  | _ => VUndefined
  end.

(** [!!v]; [isZeroOrNaN] tells the falsy opaque numbers. *)
Definition truthy (isZeroOrNaN : number -> bool) (v : value) : bool :=
  match v with
  | VUndefined | VNull => false
  | VBoolean b => b
  | VInt z => negb (z =? 0)%Z
  | VNumber n => negb (isZeroOrNaN n)
  | VString s => negb (falsy s)
  | VArray _ | VObject _ => true
  end.

(** [v === text] for a string literal *)
Definition isString (v : value) (text : jsstring) : bool :=
  match v with
  | VString s => jsstring_eqb s text
  | _ => false
  end.

End Values.

Arguments VUndefined {number}.
Arguments VNull {number}.
Arguments VBoolean {number} b.
Arguments VInt {number} z.
Arguments VString {number} s.

Local Open Scope async_scope.

(** ** The MCP route of the weather server *)

Module Route.

(** [switch (code)]: the cases compare with [===], so an absent code
    and every integer that is not listed take the [default] branch. *)
Definition wmoWeatherCodeToText (code : option Z) : jsstring :=
  match code with
  | Some 0%Z => lit "Clear sky"
  | Some 1%Z | Some 2%Z | Some 3%Z => lit "Partly cloudy"
  | Some 45%Z | Some 48%Z => lit "Fog"
  | Some 51%Z | Some 53%Z | Some 55%Z => lit "Drizzle"
  | Some 56%Z | Some 57%Z => lit "Freezing drizzle"
  | Some 61%Z | Some 63%Z | Some 65%Z => lit "Rain"
  | Some 66%Z | Some 67%Z => lit "Freezing rain"
  | Some 71%Z | Some 73%Z | Some 75%Z => lit "Snow"
  | Some 77%Z => lit "Snow grains"
  | Some 80%Z | Some 81%Z | Some 82%Z => lit "Rain showers"
  | Some 85%Z | Some 86%Z => lit "Snow showers"
  | Some 95%Z => lit "Thunderstorm"
  | Some 96%Z | Some 99%Z => lit "Thunderstorm with hail"
  | _ => lit "Unknown conditions"
  end.

(** [widgetMeta(widget)]: the entries of the tool result's [_meta]. *)
Record ContentWidget : Type := {
  id : jsstring;
  title : jsstring;
  templateUri : jsstring;
  invoking : jsstring;
  invoked : jsstring;
  description : jsstring;
  widgetDomain : jsstring
}.

Record WidgetMeta : Type := {
  outputTemplate : jsstring;
  toolInvocation_invoking : jsstring;
  toolInvocation_invoked : jsstring;
  widgetAccessible : bool;
  resultCanProduceWidget : bool
}.

Definition widgetMeta (widget : ContentWidget) : WidgetMeta :=
  {| outputTemplate := templateUri widget;
     toolInvocation_invoking := invoking widget;
     toolInvocation_invoked := invoked widget;
     widgetAccessible := false;
     resultCanProduceWidget := true |}.

(** The widget of the tool; its [html] is fetched when the server starts
    and is not part of a tool result. *)
Definition weatherWidget : ContentWidget :=
  {| id := lit "get_weather";
     title := lit "Get Weather";
     templateUri := lit "ui://widget/weather-template.html";
     invoking := lit "Checking the weather...";
     invoked := lit "Weather updated";
     description :=
       lit "Shows current conditions and today's forecast for a city";
     widgetDomain := lit "https://open-meteo.com/" |}.

Section Composer.

Context {number : Type} (host : Host number).

(** The headers of the request are not modelled: the upstream
    services answer by URL. *)
Definition fetchJsonOrThrow {T : Type}
    (service : jsstring -> completion (Response T))
    (url : jsstring) : Async T :=
  res <- fetch service url ;;
  if negb (ok res) then
    text <- catch (settle (text res)) (fun _ => ret []) ;;
    throw (ErrorObject
             (lit "Request failed (" ++ decimal (status res)
              ++ lit ") for " ++ url ++ lit ": " ++ text))
  else
    settle (json res).

(** The two shapes [getWeatherForCity] returns. *)
Inductive CityWeather : Type :=
| ok_false (error : jsstring)
| ok_true (data : Weather number).

Definition getWeatherForCity (city : jsstring) : Async CityWeather :=
  let trimmed := trim city in
  if falsy trimmed then
    throw (ErrorObject (lit "City is required."))
  else
    encoded <- settle (encodeURIComponent trimmed) ;;
    let geoUrl := geocodingUrl encoded in
    geo <- fetchJsonOrThrow (geocoding host) geoUrl ;;
    match first (results geo) with
    | None => ret (ok_false (notFoundMessage trimmed))
    | Some best =>
      let forecastUrl :=
        forecastUrl (toString host (latitude best))
                    (toString host (longitude best)) in
      forecast <- fetchJsonOrThrow (forecast host) forecastUrl ;;
      let todayHigh :=
        first (fc_daily forecast ?. @temperature_2m_max _) in
      let todayLow :=
        first (fc_daily forecast ?. @temperature_2m_min _) in
      let todayPrecipChance :=
        first (fc_daily forecast ?. @precipitation_probability_max _) in
      let locationLabel :=
        join (lit ", ")
             (truthy_strings
                [Some (name best); admin1 best; country best]) in
      let temp := fc_current forecast ?. @temperature_2m _ in
      let wind := fc_current forecast ?. @wind_speed_10m _ in
      let code := fc_current forecast ?. @weather_code _ in
      let conditions := wmoWeatherCodeToText code in
      ret (ok_true
             {| query := trimmed;
                source := lit "Open-Meteo (no API key)";
                location :=
                  {| loc_name := locationLabel;
                     loc_latitude := latitude best;
                     loc_longitude := longitude best;
                     loc_timezone :=
                       nullish_opt (fc_timezone forecast)
                                   (timezone best) |};
                current :=
                  {| cur_time := fc_current forecast ?. @time _;
                     temperature := temp;
                     temperatureUnit :=
                       Some (nullish
                               (fc_current_units forecast
                                  ?. @unit_temperature_2m)
                               [194; 176; 67]%N);
                       (* the literal in the route's source is the three
                          characters U+00C2 U+00B0 C (the bytes
                          C3 82 C2 B0 43) *)
                     windSpeed := wind;
                     windSpeedUnit :=
                       Some (nullish
                               (fc_current_units forecast
                                  ?. @unit_wind_speed_10m)
                               (lit "km/h"));
                     weatherCode := code;
                     conditions := Some conditions |};
                today :=
                  {| date := first (fc_daily forecast ?. @daily_time _);
                     high := todayHigh;
                     low := todayLow;
                     precipitationChance := todayPrecipChance;
                     precipitationChanceUnit := Some (lit "%") |} |})
    end.

(** The result of a tool call: [content] is a one-element array of
    [{ type: "text", text }], kept here as its [text]. *)
Record CallToolResult : Type := {
  content : list jsstring;
  structuredContent : WeatherStructuredContent number;
  _meta : WidgetMeta
}.

(** The handler registered for the [get_weather] tool. *)
Definition get_weather (city : jsstring) : Async CallToolResult :=
  result <-
    catch (getWeatherForCity city)
          (fun e =>
             ret (ok_false
                    (messageOr e
                       (lit "Failed to fetch weather for this city.")))) ;;
  match result with
  | ok_false error =>
    ret {| content := [error];
           structuredContent := weather_error city error;
           _meta := widgetMeta weatherWidget |}
  | ok_true d =>
    let parts := [lit "Weather for " ++ loc_name (location d)] in
    let parts :=
      match temperature (current d) with
      | Some t =>
        parts ++ [lit "Now: " ++ toString host (Math_round host t)
                  ++ template (temperatureUnit (current d))
                  ++ lit " (" ++ template (conditions (current d))
                  ++ lit ")"]
      | None => parts
      end in
    let parts :=
      match high (today d), low (today d) with
      | Some h, Some l =>
        parts ++ [lit "Today: H " ++ toString host (Math_round host h)
                  ++ template (temperatureUnit (current d))
                  ++ lit " / L " ++ toString host (Math_round host l)
                  ++ template (temperatureUnit (current d))]
      | _, _ => parts
      end in
    let parts :=
      match precipitationChance (today d) with
      | Some p =>
        parts ++ [lit "Precip chance: "
                  ++ toString host (Math_round host p) ++ lit "%"]
      | None => parts
      end in
    ret {| content := [join [10%N] parts];
           structuredContent := weather d;
           _meta := widgetMeta weatherWidget |}
  end.

End Composer.

End Route.

(** ** The widget page *)

Module Page.

Definition wmoWeatherCodeToText (code : option Z) : jsstring :=
  match code with
  | Some 0%Z => lit "Clear sky"
  | Some 1%Z | Some 2%Z | Some 3%Z => lit "Partly cloudy"
  | Some 45%Z | Some 48%Z => lit "Fog"
  | Some 51%Z | Some 53%Z | Some 55%Z => lit "Drizzle"
  | Some 56%Z | Some 57%Z => lit "Freezing drizzle"
  | Some 61%Z | Some 63%Z | Some 65%Z => lit "Rain"
  | Some 66%Z | Some 67%Z => lit "Freezing rain"
  | Some 71%Z | Some 73%Z | Some 75%Z => lit "Snow"
  | Some 77%Z => lit "Snow grains"
  | Some 80%Z | Some 81%Z | Some 82%Z => lit "Rain showers"
  | Some 85%Z | Some 86%Z => lit "Snow showers"
  | Some 95%Z => lit "Thunderstorm"
  | Some 96%Z | Some 99%Z => lit "Thunderstorm with hail"
  | _ => lit "Unknown conditions"
  end.

Section Composer.

Context {number : Type} (host : Host number).

Definition fetchWeatherOpenMeteo (city : jsstring)
  : Async (WeatherStructuredContent number) :=
  let trimmed := trim city in
  if falsy trimmed then
    ret (weather_error city (lit "City is required."))
  else
    catch
      (encoded <- settle (encodeURIComponent trimmed) ;;
       let geoUrl := geocodingUrl encoded in
       geoRes <- fetch (geocoding host) geoUrl ;;
       if negb (ok geoRes) then
         ret (weather_error trimmed
                (lit "Geocoding failed (" ++ decimal (status geoRes)
                 ++ lit ")."))
       else
         geo <- settle (json geoRes) ;;
         match first (results geo) with
         | None => ret (weather_error trimmed (notFoundMessage trimmed))
         | Some best =>
           let forecastUrl :=
             forecastUrl (toString host (latitude best))
                         (toString host (longitude best)) in
           fcRes <- fetch (forecast host) forecastUrl ;;
           if negb (ok fcRes) then
             ret (weather_error trimmed
                    (lit "Forecast failed (" ++ decimal (status fcRes)
                     ++ lit ")."))
           else
             fc <- settle (json fcRes) ;;
             let locationLabel :=
               join (lit ", ")
                    (truthy_strings
                       [Some (name best); admin1 best; country best]) in
             let code := fc_current fc ?. @weather_code _ in
             ret (weather
                    {| query := trimmed;
                       source := lit "Open-Meteo (no API key)";
                       location :=
                         {| loc_name := locationLabel;
                            loc_latitude := latitude best;
                            loc_longitude := longitude best;
                            loc_timezone :=
                              nullish_opt (fc_timezone fc)
                                          (timezone best) |};
                       current :=
                         {| cur_time := fc_current fc ?. @time _;
                            temperature :=
                              fc_current fc ?. @temperature_2m _;
                            temperatureUnit :=
                              Some (nullish
                                      (fc_current_units fc
                                         ?. @unit_temperature_2m)
                                      [176; 67]%N);
                              (* the degree sign U+00B0, then C *)
                            windSpeed :=
                              fc_current fc ?. @wind_speed_10m _;
                            windSpeedUnit :=
                              Some (nullish
                                      (fc_current_units fc
                                         ?. @unit_wind_speed_10m)
                                      (lit "km/h"));
                            weatherCode := code;
                            conditions :=
                              Some (wmoWeatherCodeToText code) |};
                       today :=
                         {| date := first (fc_daily fc ?. @daily_time _);
                            high :=
                              first (fc_daily fc
                                       ?. @temperature_2m_max _);
                            low :=
                              first (fc_daily fc
                                       ?. @temperature_2m_min _);
                            precipitationChance :=
                              first (fc_daily fc
                                 ?. @precipitation_probability_max _);
                            precipitationChanceUnit :=
                              Some (lit "%") |} |})
         end)
      (fun e =>
         ret (weather_error trimmed
                (messageOr e (lit "Failed to fetch weather.")))).

End Composer.

Section Widget.

Context {number : Type} (host : Host number).

(** The falsy numbers among the opaque ones. *)
Variable isZeroOrNaN : number -> bool.

(** [extractWeatherStructuredContent]: the first of the three candidates
    whose [kind] is "weather" or "weather_error". *)
Definition extractWeatherStructuredContent (toolOutput : value number)
  : option (value number) :=
  let asObj := toolOutput in
  if negb (truthy isZeroOrNaN asObj) then None
  else
    let candidates :=
      [ optProp (optProp asObj (lit "result")) (lit "structuredContent");
        optProp asObj (lit "structuredContent");
        asObj ] in
    find (fun c =>
            let kind := optProp c (lit "kind") in
            isString kind (lit "weather")
            || isString kind (lit "weather_error"))
         candidates.

(** [Date]: what [new Date(iso)] builds, whether its time value is [NaN],
    and [toLocaleString] with the options of the source. *)
Variable Date : Type.
Variable newDate : jsstring -> Date.
Variable isInvalid : Date -> bool.
Variable toLocaleString : Date -> jsstring.

Definition formatLocalTime (iso : option jsstring) : option jsstring :=
  match iso with
  | None => None
  | Some iso =>
    if falsy iso then None
    else
      let d := newDate iso in
      if isInvalid d then None
      else Some (toLocaleString d)
  end.

(** The text nodes [WeatherCard] renders. *)
Record WeatherTexts : Type := {
  card_name : jsstring;
  card_conditions : jsstring;
  card_time : option jsstring;      (* the line is there when truthy *)
  card_temperature : jsstring;
  card_wind : jsstring;
  card_high : jsstring;
  card_low : jsstring;
  card_rain : jsstring;
  card_footer : jsstring
}.

Inductive CardView : Type :=
| errorCard (heading message : jsstring)
| weatherCard (texts : WeatherTexts).

(** The em dash U+2014 shown for a missing value. *)
Definition emDash : jsstring := [8212%N].

Definition WeatherCard (weather : WeatherStructuredContent number)
  : CardView :=
  match weather with
  | weather_error _ error => errorCard (lit "Weather lookup failed") error
  | weather w =>
    let tempUnit := nullish (temperatureUnit (current w)) [176; 67]%N in
    let windUnit := nullish (windSpeedUnit (current w)) (lit "km/h") in
    let nowTemp :=
      match temperature (current w) with
      | Some t => Some (toString host (Math_round host t) ++ tempUnit)
      | None => None
      end in
    let nowWind :=
      match windSpeed (current w) with
      | Some v =>
        Some (toString host (Math_round host v) ++ lit " " ++ windUnit)
      | None => None
      end in
    let nowTime := formatLocalTime (cur_time (current w)) in
    let todayHigh :=
      match high (today w) with
      | Some h => Some (toString host (Math_round host h) ++ tempUnit)
      | None => None
      end in
    let todayLow :=
      match low (today w) with
      | Some l => Some (toString host (Math_round host l) ++ tempUnit)
      | None => None
      end in
    let precip :=
      match precipitationChance (today w) with
      | Some p =>
        Some (toString host (Math_round host p)
              ++ nullish (precipitationChanceUnit (today w)) (lit "%"))
      | None => None
      end in
    weatherCard
      {| card_name := loc_name (location w);
         card_conditions :=
           nullish (conditions (current w)) (lit "Current conditions");
         card_time :=
           match nowTime with
           | Some t => if falsy t then None else Some t
           | None => None
           end;
         card_temperature := nullish nowTemp emDash;
         card_wind := nullish nowWind emDash;
         card_high := nullish todayHigh emDash;
         card_low := nullish todayLow emDash;
         card_rain := nullish precip emDash;
         card_footer := lit "Data from " ++ source w |}
  end.

(** The state of [Home]. *)
Record HomeState : Type := {
  localWeather : option (WeatherStructuredContent number);
  city : jsstring;
  pendingCity : option jsstring;
  requestError : option jsstring
}.

Definition setLocalWeather
    (v : option (WeatherStructuredContent number)) (st : HomeState)
  : HomeState :=
  {| localWeather := v;
     city := city st;
     pendingCity := pendingCity st;
     requestError := requestError st |}.

Definition setPendingCity (v : option jsstring) (st : HomeState)
  : HomeState :=
  {| localWeather := localWeather st;
     city := city st;
     pendingCity := v;
     requestError := requestError st |}.

Definition setRequestError (v : option jsstring) (st : HomeState)
  : HomeState :=
  {| localWeather := localWeather st;
     city := city st;
     pendingCity := pendingCity st;
     requestError := v |}.

(** The hooks of the host. *)
Variable isChatGptApp : bool.
Variable sendMessage : jsstring -> completion unit.
Variable toLowerCase : jsstring -> jsstring.

(** [await sendMessage(message)]: the message goes to the host, and is
    recorded in the log next to the URLs fetched. *)
Definition awaitSendMessage (message : jsstring) : Async unit :=
  fun log => (sendMessage message, log ++ [message]).

(** [s.replaceAll('"', '\\"')] *)
Definition escapeQuotes (s : jsstring) : jsstring :=
  flat_map (fun c => if (c =? 34)%N then [92; 34]%N else [c]) s.

Definition requestMessage (trimmed : jsstring) : jsstring :=
  lit "Check the weather for " ++ dquote ++ trimmed ++ dquote
  ++ lit ". Use the get_weather tool with {" ++ dquote ++ lit "city"
  ++ dquote ++ lit ":" ++ dquote ++ escapeQuotes trimmed ++ dquote
  ++ lit "} and show the result.".

(** [weather ?? localWeather ?? undefined] *)
Definition effectiveWeather
    (weather : option (WeatherStructuredContent number)) (st : HomeState)
  : option (WeatherStructuredContent number) :=
  nullish_opt (nullish_opt weather (localWeather st)) None.

(** [c.query] of either shape *)
Definition queryOf (c : WeatherStructuredContent number) : jsstring :=
  match c with
  | weather w => query w
  | weather_error query _ => query
  end.

(** The effect of [Home] on [pendingCity] and the effective weather. *)
Definition pendingEffect
    (weather : option (WeatherStructuredContent number)) (st : HomeState)
  : HomeState :=
  match pendingCity st with
  | None => st
  | Some pending =>
    if falsy pending then st
    else
      match effectiveWeather weather st with
      | None => st
      | Some w =>
        if jsstring_eqb (toLowerCase (queryOf w)) (toLowerCase pending)
        then setPendingCity None st
        else st
      end
  end.

(** [requestWeather]: the state once the request has settled. *)
Definition requestWeather (st : HomeState) : Async HomeState :=
  let trimmed := trim (city st) in
  if falsy trimmed then ret st
  else
    let st := setRequestError None st in
    let st := setPendingCity (Some trimmed) st in
    let st := setLocalWeather None st in
    catch
      (if isChatGptApp then
         _ <- awaitSendMessage (requestMessage trimmed) ;;
         ret st
       else
         w <- fetchWeatherOpenMeteo host trimmed ;;
         let st := setLocalWeather (Some w) st in
         let st := setPendingCity None st in
         ret st)
      (fun e =>
         let st := setPendingCity None st in
         let st :=
           setRequestError
             (Some (messageOr e (lit "Failed to request weather."))) st in
         ret st).

(** [disabled] of the search button *)
Definition searchDisabled (st : HomeState) : bool :=
  falsy (trim (city st))
  || match pendingCity st with Some _ => true | None => false end.

End Widget.

End Page.

(** ** The documented behaviour, and upstream scenarios *)

(** The Celsius symbol: the degree sign U+00B0, then C. *)
Definition degreeCelsius : jsstring := [176; 67]%N.

(** The enumeration table of the weather-code translator as the
    specification lists it (component 4.3): the codes of a row and the
    text they stand for. *)
Definition translationTable : list (list Z * jsstring) :=
  [ ([0], lit "Clear sky");
    ([1; 2; 3], lit "Partly cloudy");
    ([45; 48], lit "Fog");
    ([51; 53; 55], lit "Drizzle");
    ([56; 57], lit "Freezing drizzle");
    ([61; 63; 65], lit "Rain");
    ([66; 67], lit "Freezing rain");
    ([71; 73; 75], lit "Snow");
    ([77], lit "Snow grains");
    ([80; 81; 82], lit "Rain showers");
    ([85; 86], lit "Snow showers");
    ([95], lit "Thunderstorm");
    ([96; 99], lit "Thunderstorm with hail") ]%Z.

Definition unknownConditions : jsstring := lit "Unknown conditions".

(** The codes the table enumerates. *)
Definition enumeratedCodes : list Z := flat_map fst translationTable.

(** Every string the table can produce. *)
Definition translationStrings : list jsstring :=
  map snd translationTable ++ [unknownConditions].

(** The text the table documents for a code. *)
Definition documentedText (z : Z) : jsstring :=
  match find (fun row => existsb (Z.eqb z) (fst row)) translationTable with
  | Some row => snd row
  | None => unknownConditions
  end.

(** The string is empty or made of white space only. *)
Definition blank (s : jsstring) : bool :=
  forallb isWhiteSpace s.

(** The suggestion to add more location detail. *)
Definition suggestion : jsstring :=
  lit "Try including a country/state (e.g. " ++ dquote
  ++ lit "Paris, France" ++ dquote ++ lit ").".

Section Scenarios.

Context {number : Type} (host : Host number).

(** The geocoding call for [city] is issued and answers with a success
    status and the JSON body [geo]. *)
Definition geocodingAnswers (city : jsstring)
    (geo : OpenMeteoGeocodingResponse number) : Prop :=
  trim city <> [] /\
  exists encoded res,
    encodeURIComponent (trim city) = Returned encoded /\
    geocoding host (geocodingUrl encoded) = Returned res /\
    ok res = true /\ json res = Returned geo.

(** The geocoder has a match for [city], [best] being the first. *)
Definition geocodingMatch (city : jsstring)
    (best : GeocodingResult number) : Prop :=
  exists geo more,
    geocodingAnswers city geo /\ results geo = Some (best :: more).

(** The geocoder has no match for [city]: [results] is absent or
    empty. *)
Definition geocodingNoMatch (city : jsstring) : Prop :=
  exists geo,
    geocodingAnswers city geo /\
    (results geo = None \/ results geo = Some []).

(** The URL of the forecast call for a match. *)
Definition forecastUrlOf (best : GeocodingResult number) : jsstring :=
  forecastUrl (toString host (latitude best))
              (toString host (longitude best)).

(** The forecast call for [best] answers with a success status and the
    JSON body [fc]. *)
Definition forecastAnswers (best : GeocodingResult number)
    (fc : OpenMeteoForecastResponse number) : Prop :=
  exists res,
    forecast host (forecastUrlOf best) = Returned res /\
    ok res = true /\ json res = Returned fc.

(** The geocoding call for [city] is issued and answers with the
    non-success status [code]. *)
Definition geocodingStatus (city : jsstring) (code : N) : Prop :=
  trim city <> [] /\
  exists encoded res,
    encodeURIComponent (trim city) = Returned encoded /\
    geocoding host (geocodingUrl encoded) = Returned res /\
    ok res = false /\ status res = code.

(** The forecast call for [best] answers with the non-success status
    [code]. *)
Definition forecastStatus (best : GeocodingResult number) (code : N)
  : Prop :=
  exists res,
    forecast host (forecastUrlOf best) = Returned res /\
    ok res = false /\ status res = code.

(** The geocoding call for [city] is issued and fails with an
    exception: the request itself, or reading its body. *)
Definition geocodingThrows (city : jsstring) : Prop :=
  trim city <> [] /\
  exists encoded,
    encodeURIComponent (trim city) = Returned encoded /\
    ((exists e, geocoding host (geocodingUrl encoded) = Threw e) \/
     (exists res e,
        geocoding host (geocodingUrl encoded) = Returned res /\
        ok res = true /\ json res = Threw e)).

(** The forecast call for [best] fails with an exception. *)
Definition forecastThrows (best : GeocodingResult number) : Prop :=
  (exists e, forecast host (forecastUrlOf best) = Threw e) \/
  (exists res e,
     forecast host (forecastUrlOf best) = Returned res /\
     ok res = true /\ json res = Threw e).

(** One of the two upstream calls fails. *)
Inductive upstreamFailure (city : jsstring) : Prop :=
| geocoding_status code : geocodingStatus city code -> upstreamFailure city
| geocoding_exception : geocodingThrows city -> upstreamFailure city
| geocoding_no_match : geocodingNoMatch city -> upstreamFailure city
| forecast_status best code :
    geocodingMatch city best -> forecastStatus best code ->
    upstreamFailure city
| forecast_exception best :
    geocodingMatch city best -> forecastThrows best ->
    upstreamFailure city.

End Scenarios.

(** ** The success result the specification describes *)

Section Expected.

Context {number : Type}.

(** The label of a location: the name, the region and the country that
    are there and not empty, separated by commas. *)
Definition labelOf (best : GeocodingResult number) : jsstring :=
  join (lit ", ")
       (truthy_strings [Some (name best); admin1 best; country best]).

Definition locationOf (best : GeocodingResult number)
    (fc : OpenMeteoForecastResponse number) : Location number :=
  {| loc_name := labelOf best;
     loc_latitude := latitude best;
     loc_longitude := longitude best;
     loc_timezone := nullish_opt (fc_timezone fc) (timezone best) |}.

(** The current conditions: the forecast fields as they come, the units
    defaulted to [degrees] and to km/h, and the translated code. *)
Definition currentOf (degrees : jsstring)
    (fc : OpenMeteoForecastResponse number) : Current number :=
  {| cur_time := fc_current fc ?. @time _;
     temperature := fc_current fc ?. @temperature_2m _;
     temperatureUnit :=
       Some (nullish (fc_current_units fc ?. @unit_temperature_2m)
                     degrees);
     windSpeed := fc_current fc ?. @wind_speed_10m _;
     windSpeedUnit :=
       Some (nullish (fc_current_units fc ?. @unit_wind_speed_10m)
                     (lit "km/h"));
     weatherCode := fc_current fc ?. @weather_code _;
     conditions :=
       Some (Route.wmoWeatherCodeToText
               (fc_current fc ?. @weather_code _)) |}.

(** Today: index 0 of each daily series. *)
Definition todayOf (fc : OpenMeteoForecastResponse number)
  : Today number :=
  {| date := first (fc_daily fc ?. @daily_time _);
     high := first (fc_daily fc ?. @temperature_2m_max _);
     low := first (fc_daily fc ?. @temperature_2m_min _);
     precipitationChance :=
       first (fc_daily fc ?. @precipitation_probability_max _);
     precipitationChanceUnit := Some (lit "%") |}.

Definition weatherOf (degrees trimmed : jsstring)
    (best : GeocodingResult number)
    (fc : OpenMeteoForecastResponse number) : Weather number :=
  {| query := trimmed;
     source := lit "Open-Meteo (no API key)";
     location := locationOf best fc;
     current := currentOf degrees fc;
     today := todayOf fc |}.

End Expected.

(** ** The forecast adapter of the specification *)

Section Adapter.

Context {number : Type} (host : Host number).

(** The raw forecast fields the adapter hands on: what it reads of the
    current conditions and of index 0 of the daily series, and the two
    units, which are always there. *)
Record ForecastFields : Type := {
  raw_time : option jsstring;
  raw_temperature : option number;
  raw_temperatureUnit : jsstring;
  raw_windSpeed : option number;
  raw_windSpeedUnit : jsstring;
  raw_weatherCode : option Z;
  raw_date : option jsstring;
  raw_high : option number;
  raw_low : option number;
  raw_precipitationChance : option number
}.

(** Modelled from the spec: the forecast adapter (component 4.2).  The
    source has no function for it, the forecast step is written inline in
    each composer.  In the words of the specification: the input is a
    latitude/longitude pair; the adapter requests the current and daily
    aggregates for it (one call to the forecast endpoint) and returns the
    raw forecast fields, today being index 0 of the daily series, passed
    through unmodified except for unit defaulting: the temperature unit
    defaults to the Celsius symbol and the wind unit to km/h when the
    response omits the unit metadata.  A non-success status or an
    exception is a transport failure. *)
Definition specForecastAdapter (lat lon : number) : Async ForecastFields :=
  res <- fetch (forecast host)
               (forecastUrl (toString host lat) (toString host lon)) ;;
  if ok res then
    fc <- settle (json res) ;;
    ret {| raw_time := fc_current fc ?. @time _;
           raw_temperature := fc_current fc ?. @temperature_2m _;
           raw_temperatureUnit :=
             nullish (fc_current_units fc ?. @unit_temperature_2m)
                     degreeCelsius;
           raw_windSpeed := fc_current fc ?. @wind_speed_10m _;
           raw_windSpeedUnit :=
             nullish (fc_current_units fc ?. @unit_wind_speed_10m)
                     (lit "km/h");
           raw_weatherCode := fc_current fc ?. @weather_code _;
           raw_date := first (fc_daily fc ?. @daily_time _);
           raw_high := first (fc_daily fc ?. @temperature_2m_max _);
           raw_low := first (fc_daily fc ?. @temperature_2m_min _);
           raw_precipitationChance :=
             first (fc_daily fc ?. @precipitation_probability_max _) |}
  else
    throw (ErrorObject
             (lit "Forecast request failed (" ++ decimal (status res)
              ++ lit ")")).

(** The fields of a success result other than the temperature unit are
    the fields the adapter returned. *)
Definition embedsButUnit (w : Weather number) (f : ForecastFields) : Prop :=
  cur_time (current w) = raw_time f
  /\ temperature (current w) = raw_temperature f
  /\ windSpeed (current w) = raw_windSpeed f
  /\ windSpeedUnit (current w) = Some (raw_windSpeedUnit f)
  /\ weatherCode (current w) = raw_weatherCode f
  /\ date (today w) = raw_date f
  /\ high (today w) = raw_high f
  /\ low (today w) = raw_low f
  /\ precipitationChance (today w) = raw_precipitationChance f.

(** The success result embeds every field the adapter returned. *)
Definition embeds (w : Weather number) (f : ForecastFields) : Prop :=
  embedsButUnit w f
  /\ temperatureUnit (current w) = Some (raw_temperatureUnit f).

End Adapter.

(** ** The objects the tool handler returns *)

Section Wire.

Context {number : Type}.

(** A property that may be [undefined]. *)
Definition optional {A : Type} (f : A -> value number) (o : option A)
  : value number :=
  match o with
  | Some a => f a
  | None => VUndefined
  end.

(** The object literal of a structured content, property by property. *)
Definition contentValue (c : WeatherStructuredContent number)
  : value number :=
  match c with
  | weather w =>
    VObject
      [ (lit "kind", VString (lit "weather"));
        (lit "query", VString (query w));
        (lit "source", VString (source w));
        (lit "location",
         VObject
           [ (lit "name", VString (loc_name (location w)));
             (lit "latitude", VNumber (loc_latitude (location w)));
             (lit "longitude", VNumber (loc_longitude (location w)));
             (lit "timezone",
              optional VString (loc_timezone (location w))) ]);
        (lit "current",
         VObject
           [ (lit "time", optional VString (cur_time (current w)));
             (lit "temperature",
              optional (@VNumber _) (temperature (current w)));
             (lit "temperatureUnit",
              optional VString (temperatureUnit (current w)));
             (lit "windSpeed",
              optional (@VNumber _) (windSpeed (current w)));
             (lit "windSpeedUnit",
              optional VString (windSpeedUnit (current w)));
             (lit "weatherCode", optional VInt (weatherCode (current w)));
             (lit "conditions",
              optional VString (conditions (current w))) ]);
        (lit "today",
         VObject
           [ (lit "date", optional VString (date (today w)));
             (lit "high", optional (@VNumber _) (high (today w)));
             (lit "low", optional (@VNumber _) (low (today w)));
             (lit "precipitationChance",
              optional (@VNumber _) (precipitationChance (today w)));
             (lit "precipitationChanceUnit",
              optional VString (precipitationChanceUnit (today w))) ]) ]
  | weather_error query error =>
    VObject
      [ (lit "kind", VString (lit "weather_error"));
        (lit "query", VString query);
        (lit "error", VString error) ]
  end.

Definition metaValue (m : Route.WidgetMeta) : value number :=
  VObject
    [ (lit "openai/outputTemplate", VString (Route.outputTemplate m));
      (lit "openai/toolInvocation/invoking",
       VString (Route.toolInvocation_invoking m));
      (lit "openai/toolInvocation/invoked",
       VString (Route.toolInvocation_invoked m));
      (lit "openai/widgetAccessible", VBoolean (Route.widgetAccessible m));
      (lit "openai/resultCanProduceWidget",
       VBoolean (Route.resultCanProduceWidget m)) ].

(** The object the [get_weather] handler returns. *)
Definition resultValue (r : Route.CallToolResult (number := number))
  : value number :=
  VObject
    [ (lit "content",
       VArray
         (map (fun text =>
                 VObject [ (lit "type", VString (lit "text"));
                           (lit "text", VString text) ])
              (Route.content r)));
      (lit "structuredContent", contentValue (Route.structuredContent r));
      (lit "_meta", metaValue (Route._meta r)) ].

(** The value carries one of the two kinds of a structured content. *)
Definition tagged (c : value number) : bool :=
  isString (optProp c (lit "kind")) (lit "weather")
  || isString (optProp c (lit "kind")) (lit "weather_error").

End Wire.

(** A code unit of UTF-16. *)
Definition codeUnit (c : N) : bool := (c <? 65536)%N.

(** What [encodeURIComponent] leaves in its output: the unreserved
    characters and the percent sign. *)
Definition urlSafe (c : N) : bool := unreserved c || (c =? 37)%N.

(** ** Concrete hosts, for running the composers *)

(** Integers as the numbers, written in decimal. *)
Definition Z_toString (z : Z) : jsstring :=
  match z with
  | Zneg p => lit "-" ++ decimal (Npos p)
  | _ => decimal (Z.to_N z)
  end.

(** A response with status 200 and the given JSON body. *)
Definition ok200 {T : Type} (body : T) : Response T :=
  {| status := 200; text := Returned []; json := Returned body |}.

(** A response with a failure status and a text body. *)
Definition failure {T : Type} (code : N) (body : jsstring) : Response T :=
  {| status := code;
     text := Returned body;
     json := Threw (ErrorObject (lit "Unexpected token")) |}.

(** A host whose services answer every URL alike. *)
Definition serving
    (geo : completion (Response (OpenMeteoGeocodingResponse Z)))
    (fc : completion (Response (OpenMeteoForecastResponse Z))) : Host Z :=
  {| toString := Z_toString;
     Math_round := fun z => z;
     geocoding := fun _ => geo;
     forecast := fun _ => fc |}.

Definition paris : GeocodingResult Z :=
  {| name := lit "Paris";
     latitude := 49%Z;
     longitude := 2%Z;
     country := Some (lit "France");
     admin1 := Some (lit "Ile-de-France");
     timezone := Some (lit "Europe/Paris") |}.

(** A match whose name is the empty string and that carries no region. *)
Definition nameless : GeocodingResult Z :=
  {| name := [];
     latitude := 0%Z;
     longitude := 0%Z;
     country := None;
     admin1 := None;
     timezone := None |}.

(** A forecast with unit metadata. *)
Definition fullForecast : OpenMeteoForecastResponse Z :=
  {| fc_timezone := Some (lit "Europe/Paris");
     fc_current :=
       Some {| time := Some (lit "2025-06-01T12:00");
               temperature_2m := Some 21%Z;
               weather_code := Some 3%Z;
               wind_speed_10m := Some 12%Z |};
     fc_daily :=
       Some {| daily_time := Some [lit "2025-06-01"];
               temperature_2m_max := Some [24%Z];
               temperature_2m_min := Some [13%Z];
               precipitation_probability_max := Some [40%Z] |};
     fc_current_units :=
       Some {| unit_temperature_2m := Some (lit "F");
               unit_wind_speed_10m := Some (lit "mph") |} |}.

(** The same forecast without unit metadata. *)
Definition unitlessForecast : OpenMeteoForecastResponse Z :=
  {| fc_timezone := fc_timezone fullForecast;
     fc_current := fc_current fullForecast;
     fc_daily := fc_daily fullForecast;
     fc_current_units := None |}.

(** A forecast body that is the empty object. *)
Definition emptyForecast : OpenMeteoForecastResponse Z :=
  {| fc_timezone := None;
     fc_current := None;
     fc_daily := None;
     fc_current_units := None |}.

Definition found (best : GeocodingResult Z)
  : completion (Response (OpenMeteoGeocodingResponse Z)) :=
  Returned (ok200 {| results := Some [best] |}).

Definition notFound
  : completion (Response (OpenMeteoGeocodingResponse Z)) :=
  Returned (ok200 {| results := None |}).

(** A host that accepts every message, and one that refuses them. *)
Definition accepts (message : jsstring) : completion unit := Returned tt.

Definition refuses (message : jsstring) : completion unit :=
  Threw (ErrorObject (lit "host unavailable")).

(** Lower case for the ASCII letters. *)
Definition asciiLower (s : jsstring) : jsstring :=
  map (fun c => if ((65 <=? c) && (c <=? 90))%N then (c + 32)%N else c) s.

(** The state of [Home] with [text] typed into the input. *)
Definition typed (text : jsstring) : Page.HomeState (number := Z) :=
  {| Page.localWeather := None;
     Page.city := text;
     Page.pendingCity := None;
     Page.requestError := None |}.

(** Zero is the only falsy integer. *)
Definition isZero (z : Z) : bool := (z =? 0)%Z.

(** ** The MCP route of the age predictor *)

Module AgePredictor.

Section Handler.

Context {number : Type}.

(** The Agify service, and the built-ins the handler calls: the printing
    of a number and of an integer number (Number::toString), and
    [toUpperCase]. *)
Variable agify : jsstring -> completion (Response (value number)).
Variable numberToString : number -> jsstring.
Variable integerToString : Z -> jsstring.
Variable toUpperCase : jsstring -> jsstring.

(** [data.key] on a value of type [any]: a [TypeError] on [null] and
    [undefined]. *)
Definition member (data : value number) (key : jsstring)
  : completion (value number) :=
  match data with
  | VNull =>
    Threw (ErrorObject
             (lit "Cannot read properties of null (reading '" ++ key
              ++ lit "')"))
  | VUndefined =>
    Threw (ErrorObject
             (lit "Cannot read properties of undefined (reading '" ++ key
              ++ lit "')"))
  | _ => Returned (optProp data key)
  end.

(** The object has an own property of this name. *)
Definition hasOwn (props : list (jsstring * value number)) (key : jsstring)
  : bool :=
  existsb (fun entry => jsstring_eqb (fst entry) key) props.

Definition notPrimitive : thrown :=
  ErrorObject (lit "Cannot convert object to primitive value").

(** [`${v}`] of a value parsed from JSON.  A number is printed by the
    engine.  An array is the join of its items by commas, [null] items
    being empty.  An object is "[object Object]", unless it has an own
    property [toString]: parsed from JSON it is not a function, and
    neither it nor [valueOf] gives a primitive, so the conversion throws
    a [TypeError]. *)
Fixpoint stringOf (v : value number) : completion jsstring :=
  match v with
  | VUndefined => Returned (lit "undefined")
  | VNull => Returned (lit "null")
  | VBoolean true => Returned (lit "true")
  | VBoolean false => Returned (lit "false")
  | VInt z => Returned (integerToString z)
  | VNumber n => Returned (numberToString n)
  | VString s => Returned s
  | VArray items =>
    (fix joinItems (items : list (value number)) : completion jsstring :=
       match items with
       | [] => Returned []
       | item :: more =>
         match
           match item with
           | VUndefined | VNull => Returned []
           | _ => stringOf item
           end
         with
         | Threw e => Threw e
         | Returned s =>
           match more with
           | [] => Returned s
           | _ :: _ =>
             match joinItems more with
             | Threw e => Threw e
             | Returned rest => Returned (s ++ lit "," ++ rest)
             end
           end
         end
       end) items
  | VObject props =>
    if hasOwn props (lit "toString") then Threw notPrimitive
    else Returned (lit "[object Object]")
  end.

Record AgeContent : Type := {
  name : jsstring;
  age : value number;
  count : value number
}.

Record AgeResult : Type := {
  content : list jsstring;
  structuredContent : AgeContent;
  outputTemplate : jsstring;
  resultCanProduceWidget : bool
}.

Definition WIDGET_URI : jsstring := lit "ui://widget/age-predictor.html".

Definition agifyUrl (encoded : jsstring) : jsstring :=
  lit "https://api.agify.io/?name=" ++ encoded.

(** The handler registered for the [predict_age] tool. *)
Definition predict_age (name : jsstring) : Async AgeResult :=
  encoded <- settle (encodeURIComponent name) ;;
  res <- fetch agify (agifyUrl encoded) ;;
  data <- settle (json res) ;;
  textAge <- settle (member data (lit "age")) ;;
  printed <- settle (stringOf textAge) ;;
  let text :=
    lit "I predict " ++ name ++ lit " is " ++ printed
    ++ lit " years old." in
  age <- settle (member data (lit "age")) ;;
  count <- settle (member data (lit "count")) ;;
  ret {| content := [text];
         structuredContent :=
           {| name := toUpperCase (firstn 1 name) ++ skipn 1 name;
              age := age;
              count := count |};
         outputTemplate := WIDGET_URI;
         resultCanProduceWidget := true |}.

End Handler.

End AgePredictor.

(** * Properties *)

(** ** Strings *)

Lemma trimStart_blank (s : jsstring) :
  blank s = true -> trimStart s = [].
Proof.
  induction s as [|c s IH]; simpl; intros Hs.
  - reflexivity.
  - apply andb_true_iff in Hs. destruct Hs as [Hc Hs].
    rewrite Hc. exact (IH Hs).
Qed.

Lemma trim_blank (s : jsstring) :
  blank s = true -> trim s = [].
Proof.
  intros Hs. unfold trim, trimEnd.
  rewrite (trimStart_blank s Hs). reflexivity.
Qed.

Lemma trimStart_nil_blank (s : jsstring) :
  trimStart s = [] -> blank s = true.
Proof.
  induction s as [|c s IH]; simpl; intros H.
  - reflexivity.
  - destruct (isWhiteSpace c) eqn:Hc; [exact (IH H)|discriminate H].
Qed.

Lemma trimStart_head (s : jsstring) :
  match trimStart s with
  | [] => True
  | c :: _ => isWhiteSpace c = false
  end.
Proof.
  induction s as [|c s IH]; simpl; [exact I|].
  destruct (isWhiteSpace c) eqn:Hc; [exact IH | exact Hc].
Qed.

(** Only blank strings trim to the empty string. *)
Lemma trim_nil_blank (s : jsstring) :
  trim s = [] -> blank s = true.
Proof.
  unfold trim, trimEnd. intros H.
  apply trimStart_nil_blank.
  assert (Hr : trimStart (rev (trimStart s)) = [])
    by (apply (f_equal (@rev N)) in H; rewrite rev_involutive in H; exact H).
  pose proof (trimStart_head s) as Hh.
  destruct (trimStart s) as [|c t] eqn:Et; [reflexivity|].
  exfalso.
  apply trimStart_nil_blank in Hr.
  assert (Hc : isWhiteSpace c = true).
  { apply (proj1 (forallb_forall isWhiteSpace (rev (c :: t))) Hr).
    apply (proj1 (in_rev (c :: t) c)). left. reflexivity. }
  congruence.
Qed.

Lemma falsy_nil (s : jsstring) : falsy s = true <-> s = [].
Proof. destruct s; simpl; split; congruence. Qed.

Lemma includes_middle (a s b : jsstring) : includes (a ++ s ++ b) s.
Proof. exists a, b. reflexivity. Qed.

Lemma geocodingUrl_not_forecastUrl (encoded lat lon : jsstring) :
  geocodingUrl encoded <> forecastUrl lat lon.
Proof.
  unfold geocodingUrl, forecastUrl.
  change (lit "https://geocoding-api.open-meteo.com/v1/search?name=")
    with (lit "https://" ++ lit "geocoding-api.open-meteo.com/v1/search?name=").
  change (lit "https://api.open-meteo.com/v1/forecast?latitude=")
    with (lit "https://" ++ lit "api.open-meteo.com/v1/forecast?latitude=").
  rewrite <- !app_assoc. intros H. apply app_inv_head in H.
  cbn in H. discriminate H.
Qed.

(** ** The weather-code translator *)

(** The page carries a copy of the translator of the route. *)
Lemma Page_wmoWeatherCodeToText_same (code : option Z) :
  Page.wmoWeatherCodeToText code = Route.wmoWeatherCodeToText code.
Proof. reflexivity. Qed.

Lemma not_enumerated (z : Z) (codes : list Z) :
  ~ In z codes -> existsb (Z.eqb z) codes = false.
Proof.
  intros H. destruct (existsb (Z.eqb z) codes) eqn:E; [|reflexivity].
  apply existsb_exists in E. destruct E as (x & Hx & Hzx).
  apply Z.eqb_eq in Hzx. subst x. contradiction.
Qed.

(** The [switch] of the source computes the documented table. *)
Lemma wmoWeatherCodeToText_documented (z : Z) :
  Route.wmoWeatherCodeToText (Some z) = documentedText z.
Proof.
  destruct z as [|p|p]; [reflexivity| |reflexivity].
  do 7 (destruct p as [p|p|]; try reflexivity).
Qed.

Lemma documentedText_default (z : Z) :
  ~ In z enumeratedCodes -> documentedText z = unknownConditions.
Proof.
  intros H. unfold documentedText.
  destruct (find _ translationTable) as [row|] eqn:E; [|reflexivity].
  exfalso. apply find_some in E. destruct E as [Hrow Hz].
  apply existsb_exists in Hz. destruct Hz as (x & Hx & Hzx).
  apply Z.eqb_eq in Hzx. subst x.
  apply H. unfold enumeratedCodes. apply in_flat_map.
  exists row. split; assumption.
Qed.

Lemma documentedText_in_table (z : Z) :
  In (documentedText z) translationStrings.
Proof.
  unfold documentedText, translationStrings.
  destruct (find _ translationTable) as [row|] eqn:E.
  - apply in_or_app. left. apply in_map. apply (find_some _ _ E).
  - apply in_or_app. right. left. reflexivity.
Qed.

Lemma wmoWeatherCodeToText_undefined :
  Route.wmoWeatherCodeToText None = unknownConditions.
Proof. reflexivity. Qed.

Lemma wmoWeatherCodeToText_in_table (code : option Z) :
  In (Route.wmoWeatherCodeToText code) translationStrings.
Proof.
  destruct code as [z|].
  - rewrite wmoWeatherCodeToText_documented. apply documentedText_in_table.
  - rewrite wmoWeatherCodeToText_undefined.
    apply in_or_app. right. left. reflexivity.
Qed.

(** C1: the weather-code translator is a total function on the integers.
    0 gives "Clear sky", 1 to 3 "Partly cloudy", 45 and 48 "Fog", 51, 53
    and 55 "Drizzle", 56 and 57 "Freezing drizzle", 61, 63 and 65 "Rain",
    66 and 67 "Freezing rain", 71, 73 and 75 "Snow", 77 "Snow grains", 80
    to 82 "Rain showers", 85 and 86 "Snow showers", 95 "Thunderstorm", 96
    and 99 "Thunderstorm with hail", and every other integer gives
    "Unknown conditions"; the route and the page agree. *)
Theorem wmoWeatherCodeToText_total (z : Z) :
  let text := Route.wmoWeatherCodeToText (Some z) in
  ((z = 0 -> text = lit "Clear sky") /\
   (1 <= z <= 3 -> text = lit "Partly cloudy") /\
   (z = 45 \/ z = 48 -> text = lit "Fog") /\
   (z = 51 \/ z = 53 \/ z = 55 -> text = lit "Drizzle") /\
   (z = 56 \/ z = 57 -> text = lit "Freezing drizzle") /\
   (z = 61 \/ z = 63 \/ z = 65 -> text = lit "Rain") /\
   (z = 66 \/ z = 67 -> text = lit "Freezing rain") /\
   (z = 71 \/ z = 73 \/ z = 75 -> text = lit "Snow") /\
   (z = 77 -> text = lit "Snow grains") /\
   (80 <= z <= 82 -> text = lit "Rain showers") /\
   (z = 85 \/ z = 86 -> text = lit "Snow showers") /\
   (z = 95 -> text = lit "Thunderstorm") /\
   (z = 96 \/ z = 99 -> text = lit "Thunderstorm with hail") /\
   (~ In z [0; 1; 2; 3; 45; 48; 51; 53; 55; 56; 57; 61; 63; 65; 66; 67;
            71; 73; 75; 77; 80; 81; 82; 85; 86; 95; 96; 99] ->
    text = lit "Unknown conditions") /\
   Page.wmoWeatherCodeToText (Some z) = text)%Z.
Proof.
  cbv zeta.
  repeat match goal with |- _ /\ _ => split end.
  2: intros H; assert (z = 1 \/ z = 2 \/ z = 3)%Z as H' by lia;
     clear H; revert H'.
  10: intros H; assert (z = 80 \/ z = 81 \/ z = 82)%Z as H' by lia;
      clear H; revert H'.
  14: intros H; rewrite wmoWeatherCodeToText_documented;
      apply (documentedText_default H).
  14: reflexivity.
  all: intros H; repeat destruct H as [H|H]; subst z; reflexivity.
Qed.

Lemma wmoWeatherCodeToText_total_witness :
  Route.wmoWeatherCodeToText (Some 48%Z) = lit "Fog" /\
  Route.wmoWeatherCodeToText (Some 81%Z) = lit "Rain showers" /\
  Route.wmoWeatherCodeToText (Some (-4)%Z) = lit "Unknown conditions".
Proof.
  split; [|split].
  - destruct (wmoWeatherCodeToText_total 48) as (_ & _ & Hfog & _).
    apply Hfog. right. reflexivity.
  - destruct (wmoWeatherCodeToText_total 81)
      as (_ & _ & _ & _ & _ & _ & _ & _ & _ & Hshowers & _).
    apply Hshowers. lia.
  - destruct (wmoWeatherCodeToText_total (-4))
      as (_ & _ & _ & _ & _ & _ & _ & _ & _ & _ & _ & _ & _ & Hother & _).
    apply Hother. intros H.
    repeat destruct H as [H|H]; first [discriminate H | exact H].
Defined.

(** ** Running the composers *)

Arguments lit : simpl never.
Arguments trim : simpl never.
Arguments falsy !s.
Arguments first : simpl never.
Arguments chain : simpl never.
Arguments nullish : simpl never.
Arguments nullish_opt : simpl never.
Arguments template : simpl never.
Arguments join : simpl never.
Arguments truthy_strings : simpl never.
Arguments encodeURIComponent : simpl never.
Arguments decimal : simpl never.
Arguments geocodingUrl : simpl never.
Arguments forecastUrl : simpl never.
Arguments notFoundMessage : simpl never.
Arguments Route.wmoWeatherCodeToText : simpl never.
Arguments Page.wmoWeatherCodeToText : simpl never.

Ltac unfold_composers :=
  unfold run, Route.get_weather, Route.getWeatherForCity,
    Route.fetchJsonOrThrow, Page.fetchWeatherOpenMeteo,
    bind, catch, settle, fetch, ret, throw.

Ltac use_facts :=
  repeat match goal with
         | H : ?x = _ |- context [?x] => rewrite H; cbn
         end.

Ltac run_composers := unfold_composers; cbn; use_facts.

(** Case analysis on what the host answers, in the order the composer
    asks. *)
Ltac split_run :=
  repeat match goal with
         | |- context [if ?b then _ else _] => destruct b eqn:?; cbn
         | |- context [match ?x with Returned _ => _ | Threw _ => _ end] =>
           destruct x eqn:?; cbn
         | |- context [match first ?x with Some _ => _ | None => _ end] =>
           destruct (first x) eqn:?; cbn
         end.

Section Runs.

Context {number : Type} (host : Host number).

Lemma falsy_nonempty (s : jsstring) : s <> [] -> falsy s = false.
Proof. destruct s; [contradiction|reflexivity]. Qed.

Lemma first_no_match (A : Type) (xs : option (list A)) :
  xs = None \/ xs = Some [] -> first xs = None.
Proof. intros [->| ->]; reflexivity. Qed.

Lemma first_match (A : Type) (xs : option (list A)) (x : A)
    (more : list A) :
  xs = Some (x :: more) -> first xs = Some x.
Proof. intros ->. reflexivity. Qed.

(** The tool handler settles normally whatever the host answers. *)
Lemma Route_get_weather_returns (city : jsstring) :
  exists result log,
    run (Route.get_weather host city) = (Returned result, log).
Proof.
  unfold run, Route.get_weather, bind, catch.
  destruct (Route.getWeatherForCity host city []) as [[[error|d]|e] log];
    cbn; unfold ret; eauto.
Qed.

(** So does the composer of the page. *)
Lemma Page_fetchWeatherOpenMeteo_returns (city : jsstring) :
  exists result log,
    run (Page.fetchWeatherOpenMeteo host city) = (Returned result, log).
Proof.
  unfold_composers. split_run; eauto.
Qed.

Lemma Route_getWeatherForCity_blank (city : jsstring) :
  trim city = [] ->
  run (Route.getWeatherForCity host city)
  = (Threw (ErrorObject (lit "City is required.")), []).
Proof. intros Ht. run_composers. reflexivity. Qed.

End Runs.

(** C3: for every input that is empty or made of white space only, the
    composer gives a result of kind "weather_error" whose message is
    "City is required.", and the log of outbound calls is empty: neither
    the geocoding call nor the forecast call is issued.  This holds for
    the tool handler of the route and for the composer of the page. *)
Theorem blank_city_is_rejected
    (number : Type) (host : Host number) (city : jsstring) :
  blank city = true ->
  run (Route.get_weather host city)
  = (Returned
       {| Route.content := [lit "City is required."];
          Route.structuredContent :=
            weather_error city (lit "City is required.");
          Route._meta := Route.widgetMeta Route.weatherWidget |},
     [])
  /\ run (Page.fetchWeatherOpenMeteo host city)
     = (Returned (weather_error city (lit "City is required.")), [])
  /\ kind (weather_error (number := number) city (lit "City is required."))
     = lit "weather_error".
Proof.
  intros Hb. apply trim_blank in Hb.
  repeat split; run_composers; reflexivity.
Qed.

Lemma blank_city_is_rejected_witness :
  blank [32; 9; 160]%N = true /\
  run (Page.fetchWeatherOpenMeteo
         (serving (found paris) (Returned (ok200 fullForecast)))
         [32; 9; 160]%N)
  = (Returned (weather_error [32; 9; 160]%N (lit "City is required.")), []).
Proof.
  split; [reflexivity|].
  apply (@blank_city_is_rejected Z
           (serving (found paris) (Returned (ok200 fullForecast)))
           [32; 9; 160]%N).
  reflexivity.
Defined.

(** C4, as amended: for every city that is not blank and for which the
    geocoding response has no match ([results] absent or empty), the
    composer gives a result of kind "weather_error" whose message quotes
    the query text with its leading and trailing white space removed (the
    trimmed city, which is the original text when the city has no white
    space around it), and the only outbound call is the geocoding call:
    no forecast URL is fetched.  This holds for the tool handler of the
    route and for the composer of the page. *)
Theorem no_match_is_reported
    (number : Type) (host : Host number) (city : jsstring) :
  geocodingNoMatch host city ->
  exists encoded error,
    encodeURIComponent (trim city) = Returned encoded
    /\ run (Route.get_weather host city)
       = (Returned
            {| Route.content := [error];
               Route.structuredContent := weather_error city error;
               Route._meta := Route.widgetMeta Route.weatherWidget |},
          [geocodingUrl encoded])
    /\ run (Page.fetchWeatherOpenMeteo host city)
       = (Returned (weather_error (trim city) error),
          [geocodingUrl encoded])
    /\ kind (weather_error (number := number) city error)
       = lit "weather_error"
    /\ includes error (trim city)
    /\ forall lat lon, ~ In (forecastUrl lat lon) [geocodingUrl encoded].
Proof.
  intros (geo & (Hne & encoded & res & Henc & Hres & Hok & Hjson) & Hnone).
  apply falsy_nonempty in Hne. apply first_no_match in Hnone.
  exists encoded, (notFoundMessage (trim city)).
  split; [exact Henc|].
  split; [run_composers; reflexivity|].
  split; [run_composers; reflexivity|].
  split; [reflexivity|].
  split.
  - unfold notFoundMessage. rewrite app_assoc. apply includes_middle.
  - intros lat lon [H|[]].
    exact (geocodingUrl_not_forecastUrl H).
Qed.

Lemma no_match_is_reported_witness :
  exists encoded error,
    encodeURIComponent (trim (lit " Atlantis")) = Returned encoded
    /\ run (Route.get_weather
              (serving notFound (Returned (ok200 fullForecast)))
              (lit " Atlantis"))
       = (Returned
            {| Route.content := [error];
               Route.structuredContent :=
                 weather_error (lit " Atlantis") error;
               Route._meta := Route.widgetMeta Route.weatherWidget |},
          [geocodingUrl encoded])
    /\ run (Page.fetchWeatherOpenMeteo
              (serving notFound (Returned (ok200 fullForecast)))
              (lit " Atlantis"))
       = (Returned (weather_error (trim (lit " Atlantis")) error),
          [geocodingUrl encoded])
    /\ kind (weather_error (number := Z) (lit " Atlantis") error)
       = lit "weather_error"
    /\ includes error (trim (lit " Atlantis"))
    /\ forall lat lon, ~ In (forecastUrl lat lon) [geocodingUrl encoded].
Proof.
  apply (@no_match_is_reported Z
           (serving notFound (Returned (ok200 fullForecast)))
           (lit " Atlantis")).
  exists {| results := None |}. split.
  - split; [discriminate|].
    exists (lit "Atlantis"), (ok200 {| results := None |}).
    repeat split; reflexivity.
  - left. reflexivity.
Defined.

Ltac open_scenario :=
  unfold geocodingStatus, geocodingThrows, geocodingNoMatch, geocodingMatch,
    geocodingAnswers, forecastStatus, forecastThrows, forecastAnswers,
    forecastUrlOf in *;
  repeat match goal with
         | H : _ /\ _ |- _ => destruct H
         | H : exists _, _ |- _ => destruct H
         | H : trim _ <> [] |- _ => apply falsy_nonempty in H
         | H : _ = None \/ _ = Some [] |- _ => apply first_no_match in H
         | H : _ = Some (_ :: _) |- _ => apply first_match in H
         end.

Lemma startsWith_app (needle after : jsstring) :
  startsWith (needle ++ after) needle = true.
Proof.
  induction needle as [|n needle IH]; [reflexivity|].
  cbn. rewrite N.eqb_refl. exact IH.
Qed.

Lemma includesb_unfold (s needle : jsstring) :
  includesb s needle
  = startsWith s needle
    || match s with
       | [] => false
       | _ :: s' => includesb s' needle
       end.
Proof. destruct s; reflexivity. Qed.

(** The search by position finds every occurrence. *)
Lemma includes_includesb (s needle : jsstring) :
  includes s needle -> includesb s needle = true.
Proof.
  intros (before & after & ->).
  induction before as [|c before IH].
  - rewrite includesb_unfold. cbn [app].
    rewrite startsWith_app. reflexivity.
  - cbn [app includesb]. rewrite IH. apply orb_true_r.
Qed.

(** C4, the claim as stated fails: for the city " Atlantis", with a
    space in front, the geocoder has no match and both composers give a
    "weather_error" whose message quotes "Atlantis"; the original text,
    space included, occurs nowhere in the message. *)
Lemma padded_city_is_not_quoted_verbatim :
  let host := serving notFound (Returned (ok200 fullForecast)) in
  let city := lit " Atlantis" in
  geocodingNoMatch host city
  /\ (exists error log,
         run (Route.get_weather host city)
         = (Returned
              {| Route.content := [error];
                 Route.structuredContent := weather_error city error;
                 Route._meta := Route.widgetMeta Route.weatherWidget |},
            log)
         /\ includes error (lit "Atlantis")
         /\ ~ includes error city)
  /\ (exists error log,
         run (Page.fetchWeatherOpenMeteo host city)
         = (Returned (weather_error (trim city) error), log)
         /\ includes error (lit "Atlantis")
         /\ ~ includes error city).
Proof.
  cbv zeta. split; [|split].
  - exists {| results := None |}. split; [|left; reflexivity].
    split; [discriminate|].
    exists (lit "Atlantis"), (ok200 {| results := None |}).
    repeat split; reflexivity.
  - exists (notFoundMessage (lit "Atlantis")). eexists.
    split; [vm_compute; reflexivity|]. split.
    + unfold notFoundMessage. rewrite app_assoc. apply includes_middle.
    + intros H. apply includes_includesb in H. vm_compute in H.
      discriminate H.
  - exists (notFoundMessage (lit "Atlantis")). eexists.
    split; [vm_compute; reflexivity|]. split.
    + unfold notFoundMessage. rewrite app_assoc. apply includes_middle.
    + intros H. apply includes_includesb in H. vm_compute in H.
      discriminate H.
Qed.

(** C5: whatever the city and whatever the two upstream services answer,
    the [get_weather] handler settles normally, it never throws to its
    caller; and when an upstream call fails (a non-success status, an
    exception, or no geocoding match) the structured content of its
    result is the "weather_error" record with the fields [query] and
    [error].  The composer of the page behaves alike. *)
Theorem upstream_failure_stays_in_payload
    (number : Type) (host : Host number) (city : jsstring) :
  (exists result log,
      run (Route.get_weather host city) = (Returned result, log))
  /\ (exists result log,
         run (Page.fetchWeatherOpenMeteo host city) = (Returned result, log))
  /\ (upstreamFailure host city ->
      (exists error log,
          run (Route.get_weather host city)
          = (Returned
               {| Route.content := [error];
                  Route.structuredContent := weather_error city error;
                  Route._meta := Route.widgetMeta Route.weatherWidget |},
             log)
          /\ kind (weather_error (number := number) city error)
             = lit "weather_error")
      /\ (exists error log,
             run (Page.fetchWeatherOpenMeteo host city)
             = (Returned (weather_error (trim city) error), log))).
Proof.
  split; [apply Route_get_weather_returns|].
  split; [apply Page_fetchWeatherOpenMeteo_returns|].
  intros Hfail. split.
  - destruct Hfail as [code H|H|H|best code Hm H|best Hm H];
      open_scenario;
      repeat match goal with H : _ \/ _ |- _ => destruct H end;
      open_scenario;
      run_composers; split_run; eexists; eexists; split; reflexivity.
  - destruct Hfail as [code H|H|H|best code Hm H|best Hm H];
      open_scenario;
      repeat match goal with H : _ \/ _ |- _ => destruct H end;
      open_scenario;
      run_composers; split_run; eexists; eexists; reflexivity.
Qed.

Lemma upstream_failure_stays_in_payload_witness :
  exists error log,
    run (Route.get_weather
           (serving (Returned (failure 503 (lit "busy")))
                    (Returned (ok200 fullForecast)))
           (lit "Paris"))
    = (Returned
         {| Route.content := [error];
            Route.structuredContent := weather_error (lit "Paris") error;
            Route._meta := Route.widgetMeta Route.weatherWidget |},
       log)
    /\ kind (weather_error (number := Z) (lit "Paris") error)
       = lit "weather_error".
Proof.
  apply (@upstream_failure_stays_in_payload Z
           (serving (Returned (failure 503 (lit "busy")))
                    (Returned (ok200 fullForecast)))
           (lit "Paris")).
  apply geocoding_status with (code := 503%N).
  split; [discriminate|].
  exists (lit "Paris"), (failure 503 (lit "busy")).
  repeat split; reflexivity.
Defined.

Lemma notFoundMessage_suggests (trimmed : jsstring) :
  includes (notFoundMessage trimmed) suggestion.
Proof.
  exists (lit "Couldn't find a location for " ++ dquote ++ trimmed
          ++ dquote ++ lit ". "), [].
  unfold notFoundMessage, suggestion.
  rewrite app_nil_r, <- !app_assoc.
  do 4 f_equal.
Qed.

(** C7: when the geocoding call or the forecast call answers with a
    non-success status, the message of the resulting "weather_error"
    includes that status code in decimal; when the geocoder has no match,
    the message carries the suggestion to add a country or state.  This
    holds for the tool handler of the route and for the composer of the
    page. *)
Theorem failing_status_is_reported
    (number : Type) (host : Host number) (city : jsstring) :
  let reports (note : jsstring) :=
    (exists error log,
        run (Route.get_weather host city)
        = (Returned
             {| Route.content := [error];
                Route.structuredContent := weather_error city error;
                Route._meta := Route.widgetMeta Route.weatherWidget |},
           log)
        /\ includes error note)
    /\ (exists error log,
           run (Page.fetchWeatherOpenMeteo host city)
           = (Returned (weather_error (trim city) error), log)
           /\ includes error note) in
  (forall code, geocodingStatus host city code -> reports (decimal code))
  /\ (forall best code,
         geocodingMatch host city best -> forecastStatus host best code ->
         reports (decimal code))
  /\ (geocodingNoMatch host city -> reports suggestion).
Proof.
  cbv zeta. split; [|split].
  - intros code H. open_scenario. subst code. split.
    + run_composers. split_run;
        (eexists; eexists; split; [reflexivity|apply includes_middle]).
    + run_composers.
      eexists; eexists; split; [reflexivity|apply includes_middle].
  - intros best code Hm H. open_scenario. subst code. split.
    + run_composers. split_run;
        (eexists; eexists; split; [reflexivity|apply includes_middle]).
    + run_composers.
      eexists; eexists; split; [reflexivity|apply includes_middle].
  - intros H. open_scenario. split.
    + run_composers.
      eexists; eexists; split; [reflexivity|apply notFoundMessage_suggests].
    + run_composers.
      eexists; eexists; split; [reflexivity|apply notFoundMessage_suggests].
Qed.

Lemma failing_status_is_reported_witness :
  exists error log,
    run (Route.get_weather
           (serving (found paris) (Returned (failure 500 (lit "down"))))
           (lit "Paris"))
    = (Returned
         {| Route.content := [error];
            Route.structuredContent := weather_error (lit "Paris") error;
            Route._meta := Route.widgetMeta Route.weatherWidget |},
       log)
    /\ includes error (lit "500").
Proof.
  destruct (@failing_status_is_reported Z
              (serving (found paris) (Returned (failure 500 (lit "down"))))
              (lit "Paris")) as (_ & Hforecast & _).
  apply (Hforecast paris 500%N).
  - exists {| results := Some [paris] |}, []. split; [|reflexivity].
    split; [discriminate|].
    exists (lit "Paris"), (ok200 {| results := Some [paris] |}).
    repeat split; reflexivity.
  - exists (failure 500 (lit "down")). repeat split; reflexivity.
Defined.

(** ** Success results *)

Section Success.

Context {number : Type} (host : Host number).

Lemma first_some_inv (A : Type) (xs : option (list A)) (x : A) :
  first xs = Some x -> exists more, xs = Some (x :: more).
Proof.
  destruct xs as [[|y more]|]; cbv; intros H; try discriminate H.
  injection H as ->. exists more. reflexivity.
Qed.

Lemma falsy_false_inv (s : jsstring) : falsy s = false -> s <> [].
Proof. destruct s; [discriminate|discriminate]. Qed.

Lemma Route_getWeatherForCity_success (city : jsstring)
    (best : GeocodingResult number)
    (fc : OpenMeteoForecastResponse number) :
  geocodingMatch host city best -> forecastAnswers host best fc ->
  exists encoded,
    encodeURIComponent (trim city) = Returned encoded
    /\ run (Route.getWeatherForCity host city)
       = (Returned
            (Route.ok_true
               (weatherOf [194; 176; 67]%N (trim city) best fc)),
          [geocodingUrl encoded; forecastUrlOf host best]).
Proof.
  intros Hm Hf. open_scenario.
  eexists. split; [eassumption|].
  run_composers. reflexivity.
Qed.

Lemma Page_fetchWeatherOpenMeteo_success (city : jsstring)
    (best : GeocodingResult number)
    (fc : OpenMeteoForecastResponse number) :
  geocodingMatch host city best -> forecastAnswers host best fc ->
  exists encoded,
    encodeURIComponent (trim city) = Returned encoded
    /\ run (Page.fetchWeatherOpenMeteo host city)
       = (Returned (weather (weatherOf degreeCelsius (trim city) best fc)),
          [geocodingUrl encoded; forecastUrlOf host best]).
Proof.
  intros Hm Hf. open_scenario.
  eexists. split; [eassumption|].
  run_composers. reflexivity.
Qed.

(** A success result only comes from a match and a forecast. *)
Lemma Route_getWeatherForCity_success_inv (city : jsstring)
    (w : Weather number) (log : list jsstring) :
  run (Route.getWeatherForCity host city) = (Returned (Route.ok_true w), log) ->
  exists best fc,
    geocodingMatch host city best /\ forecastAnswers host best fc
    /\ w = weatherOf [194; 176; 67]%N (trim city) best fc.
Proof.
  unfold_composers. cbn. split_run; intros H; try discriminate H.
  injection H as <- _.
  match goal with
  | Hb : first (results _) = Some ?b, Hj : json _ = Returned ?f
    |- _ => exists b, f
  end.
  repeat match goal with
         | H : first _ = Some _ |- _ =>
           apply first_some_inv in H; destruct H as [more H]
         | H : falsy _ = false |- _ => apply falsy_false_inv in H
         | H : negb _ = false |- _ => apply negb_false_iff in H
         end.
  unfold geocodingMatch, geocodingAnswers, forecastAnswers, forecastUrlOf.
  split; [|split; [|reflexivity]]; eauto 12.
Qed.

Lemma Page_fetchWeatherOpenMeteo_success_inv (city : jsstring)
    (w : Weather number) (log : list jsstring) :
  run (Page.fetchWeatherOpenMeteo host city) = (Returned (weather w), log) ->
  exists best fc,
    geocodingMatch host city best /\ forecastAnswers host best fc
    /\ w = weatherOf degreeCelsius (trim city) best fc.
Proof.
  unfold_composers. cbn. split_run; intros H; try discriminate H.
  injection H as <- _.
  match goal with
  | Hb : first (results _) = Some ?b, Hj : json _ = Returned ?f
    |- _ => exists b, f
  end.
  repeat match goal with
         | H : first _ = Some _ |- _ =>
           apply first_some_inv in H; destruct H as [more H]
         | H : falsy _ = false |- _ => apply falsy_false_inv in H
         | H : negb _ = false |- _ => apply negb_false_iff in H
         end.
  unfold geocodingMatch, geocodingAnswers, forecastAnswers, forecastUrlOf.
  split; [|split; [|reflexivity]]; eauto 12.
Qed.

End Success.

Section Handler.

Context {number : Type} (host : Host number).

(** The tool handler hands on the data of [getWeatherForCity] as its
    structured content. *)
Lemma Route_get_weather_success (city : jsstring)
    (best : GeocodingResult number)
    (fc : OpenMeteoForecastResponse number) :
  geocodingMatch host city best -> forecastAnswers host best fc ->
  exists summary log,
    run (Route.get_weather host city)
    = (Returned
         {| Route.content := [summary];
            Route.structuredContent :=
              weather (weatherOf [194; 176; 67]%N (trim city) best fc);
            Route._meta := Route.widgetMeta Route.weatherWidget |},
       log).
Proof.
  intros Hm Hf. open_scenario.
  run_composers. eexists. eexists. reflexivity.
Qed.

End Handler.

(** ** The label of a location *)

Lemma labelOf_nonempty (number : Type) (best : GeocodingResult number) :
  labelOf best <> [] <->
  (name best <> []
   \/ (exists s, admin1 best = Some s /\ s <> [])
   \/ (exists s, country best = Some s /\ s <> [])).
Proof.
  destruct best as [n lat lon c a tz].
  destruct n as [|n0 n]; destruct a as [[|a0 a]|]; destruct c as [[|c0 c]|];
    cbv - [lit]; split.
  all: try (intros _;
            first [ left; discriminate
                  | right; left; eexists; split; [reflexivity|discriminate]
                  | right; right; eexists; split;
                    [reflexivity|discriminate] ]).
  all: try (intros _; discriminate).
  all: try (intros H; exfalso; apply H; reflexivity).
  all: intros [H|[(s & Hs & H)|(s & Hs & H)]];
    try discriminate Hs; try (injection Hs as <-);
    exfalso; apply H; reflexivity.
Qed.

(** ** Success results of the composers *)

Lemma found_matches (best : GeocodingResult Z)
    (fc : completion (Response (OpenMeteoForecastResponse Z)))
    (city encoded : jsstring) :
  trim city <> [] ->
  encodeURIComponent (trim city) = Returned encoded ->
  geocodingMatch (serving (found best) fc) city best.
Proof.
  intros Hne Henc.
  exists {| results := Some [best] |}, []. split; [|reflexivity].
  split; [exact Hne|].
  exists encoded, (ok200 {| results := Some [best] |}).
  repeat split; try reflexivity. exact Henc.
Qed.

Lemma served_forecast (geo : completion (Response (OpenMeteoGeocodingResponse Z)))
    (best : GeocodingResult Z) (fc : OpenMeteoForecastResponse Z) :
  forecastAnswers (serving geo (Returned (ok200 fc))) best fc.
Proof. exists (ok200 fc). repeat split; reflexivity. Qed.

(** C6, the claim as stated fails: a geocoding match whose name is the
    empty string and that has no region and no country is a match, the
    forecast call succeeds, and both composers return a result of kind
    "weather" whose [location.name] is the empty string. *)
Lemma nameless_match_has_empty_location_name :
  let host := serving (found nameless) (Returned (ok200 emptyForecast)) in
  geocodingMatch host (lit "Nowhere") nameless
  /\ forecastAnswers host nameless emptyForecast
  /\ (exists w log,
         run (Route.getWeatherForCity host (lit "Nowhere"))
         = (Returned (Route.ok_true w), log)
         /\ loc_name (location w) = [])
  /\ (exists w log,
         run (Page.fetchWeatherOpenMeteo host (lit "Nowhere"))
         = (Returned (weather w), log)
         /\ loc_name (location w) = []).
Proof.
  cbv zeta. split; [|split; [|split]].
  - apply found_matches with (encoded := lit "Nowhere");
      [discriminate|reflexivity].
  - apply served_forecast.
  - eexists. eexists. split; [vm_compute; reflexivity|reflexivity].
  - eexists. eexists. split; [vm_compute; reflexivity|reflexivity].
Qed.

(** C6, as amended: for every city with a geocoding match and a
    successful forecast call, both composers return a result of kind
    "weather" whose [current.conditions] is one of the strings of the
    translation table and whose [location.name] is the comma-separated
    list of the name, region and country of the match that are not empty:
    it is a non-empty string exactly when one of the three is. *)
Theorem known_match_gives_weather
    (number : Type) (host : Host number) (city : jsstring)
    (best : GeocodingResult number)
    (fc : OpenMeteoForecastResponse number) :
  geocodingMatch host city best -> forecastAnswers host best fc ->
  let good (w : Weather number) :=
    kind (weather w) = lit "weather"
    /\ loc_name (location w) = labelOf best
    /\ (loc_name (location w) <> [] <->
        (name best <> []
         \/ (exists s, admin1 best = Some s /\ s <> [])
         \/ (exists s, country best = Some s /\ s <> [])))
    /\ (exists text,
           conditions (current w) = Some text
           /\ In text translationStrings) in
  (exists w log,
      run (Route.getWeatherForCity host city)
      = (Returned (Route.ok_true w), log) /\ good w)
  /\ (exists w log,
         run (Page.fetchWeatherOpenMeteo host city)
         = (Returned (weather w), log) /\ good w).
Proof.
  intros Hm Hf. cbv zeta.
  destruct (Route_getWeatherForCity_success Hm Hf) as (e1 & _ & Hroute).
  destruct (Page_fetchWeatherOpenMeteo_success Hm Hf) as (e2 & _ & Hpage).
  split; eexists; eexists; (split; [eassumption|]); cbn;
    (split; [reflexivity|]); (split; [reflexivity|]);
    (split; [apply labelOf_nonempty|]);
    eexists; (split; [reflexivity|apply wmoWeatherCodeToText_in_table]).
Qed.

Lemma known_match_gives_weather_witness :
  exists w log,
    run (Page.fetchWeatherOpenMeteo
           (serving (found paris) (Returned (ok200 fullForecast)))
           (lit "Paris"))
    = (Returned (weather w), log)
    /\ loc_name (location w) <> []
    /\ conditions (current w) = Some (lit "Partly cloudy").
Proof.
  destruct (@known_match_gives_weather Z
              (serving (found paris) (Returned (ok200 fullForecast)))
              (lit "Paris") paris fullForecast)
    as (_ & w & log & Hrun & _ & _ & Hname & _).
  - apply found_matches with (encoded := lit "Paris");
      [discriminate|reflexivity].
  - apply served_forecast.
  - exists w, log. split; [exact Hrun|].
    vm_compute in Hrun. injection Hrun as <- _.
    split; [discriminate|reflexivity].
Defined.

(** ** Round trip through the forecast adapter *)

Section RoundTrip.

Context {number : Type} (host : Host number).

Lemma specForecastAdapter_answers (best : GeocodingResult number)
    (fc : OpenMeteoForecastResponse number) :
  forecastAnswers host best fc ->
  exists f,
    run (specForecastAdapter host (latitude best) (longitude best))
    = (Returned f, [forecastUrlOf host best])
    /\ raw_temperatureUnit f
       = nullish (fc_current_units fc ?. @unit_temperature_2m) degreeCelsius
    /\ embedsButUnit (weatherOf [] [] best fc) f.
Proof.
  intros (res & Hres & Hok & Hjson). unfold forecastUrlOf in Hres.
  unfold run, specForecastAdapter, bind, fetch, settle, ret. cbn.
  rewrite Hres, Hok, Hjson.
  eexists. split; [reflexivity|]. split; [reflexivity|].
  repeat split.
Qed.

(** The page embeds exactly what the adapter of the specification
    returns for the coordinates of the result. *)
Lemma Page_round_trip (city : jsstring) (w : Weather number)
    (log : list jsstring) :
  run (Page.fetchWeatherOpenMeteo host city) = (Returned (weather w), log) ->
  exists f,
    run (specForecastAdapter host (loc_latitude (location w))
                             (loc_longitude (location w)))
    = (Returned f,
       [forecastUrl (toString host (loc_latitude (location w)))
                    (toString host (loc_longitude (location w)))])
    /\ embeds w f.
Proof.
  intros Hrun. apply Page_fetchWeatherOpenMeteo_success_inv in Hrun.
  destruct Hrun as (best & fc & _ & Hf & ->).
  destruct (specForecastAdapter_answers Hf) as (f & Hrun & Hunit & Hrest).
  exists f. split; [exact Hrun|]. split; [exact Hrest|].
  cbn. rewrite Hunit. reflexivity.
Qed.

(** The route embeds what the adapter returns, but for the temperature
    unit when the forecast has none. *)
Lemma Route_round_trip_but_unit (city : jsstring) (w : Weather number)
    (log : list jsstring) :
  run (Route.getWeatherForCity host city) = (Returned (Route.ok_true w), log) ->
  exists f,
    run (specForecastAdapter host (loc_latitude (location w))
                             (loc_longitude (location w)))
    = (Returned f,
       [forecastUrl (toString host (loc_latitude (location w)))
                    (toString host (loc_longitude (location w)))])
    /\ embedsButUnit w f
    /\ (temperatureUnit (current w) = Some (raw_temperatureUnit f)
        \/ (temperatureUnit (current w) = Some [194; 176; 67]%N
            /\ raw_temperatureUnit f = degreeCelsius)).
Proof.
  intros Hrun. apply Route_getWeatherForCity_success_inv in Hrun.
  destruct Hrun as (best & fc & _ & Hf & ->).
  destruct (specForecastAdapter_answers Hf) as (f & Hrun & Hunit & Hrest).
  exists f. split; [exact Hrun|]. split; [exact Hrest|].
  cbn. rewrite Hunit. unfold nullish.
  destruct (fc_current_units fc ?. @unit_temperature_2m); auto.
Qed.

End RoundTrip.


(** C9: the translator takes an absent code to "Unknown conditions", so
    every success result has [current.conditions] defined: it is the
    translation of [current.weatherCode], and it is "Unknown conditions"
    when the forecast response carries no weather code, in which case the
    composers still return a success result. *)
Theorem conditions_always_defined
    (number : Type) (host : Host number) (city : jsstring) :
  let defined (w : Weather number) :=
    conditions (current w)
    = Some (Route.wmoWeatherCodeToText (weatherCode (current w)))
    /\ (weatherCode (current w) = None ->
        conditions (current w) = Some (lit "Unknown conditions")) in
  Route.wmoWeatherCodeToText None = lit "Unknown conditions"
  /\ Page.wmoWeatherCodeToText None = lit "Unknown conditions"
  /\ (forall w log,
         run (Route.getWeatherForCity host city)
         = (Returned (Route.ok_true w), log) -> defined w)
  /\ (forall w log,
         run (Page.fetchWeatherOpenMeteo host city)
         = (Returned (weather w), log) -> defined w)
  /\ (forall best fc,
         geocodingMatch host city best -> forecastAnswers host best fc ->
         fc_current fc ?. @weather_code _ = None ->
         (exists w log,
             run (Route.getWeatherForCity host city)
             = (Returned (Route.ok_true w), log)
             /\ conditions (current w) = Some (lit "Unknown conditions"))
         /\ (exists w log,
                run (Page.fetchWeatherOpenMeteo host city)
                = (Returned (weather w), log)
                /\ conditions (current w)
                   = Some (lit "Unknown conditions"))).
Proof.
  cbv zeta. split; [reflexivity|]. split; [reflexivity|].
  split; [|split].
  - intros w log Hrun.
    apply Route_getWeatherForCity_success_inv in Hrun.
    destruct Hrun as (best & fc & _ & _ & ->). cbn.
    split; [reflexivity|]. intros ->. reflexivity.
  - intros w log Hrun.
    apply Page_fetchWeatherOpenMeteo_success_inv in Hrun.
    destruct Hrun as (best & fc & _ & _ & ->). cbn.
    split; [reflexivity|]. intros ->. reflexivity.
  - intros best fc Hm Hf Hcode.
    destruct (Route_getWeatherForCity_success Hm Hf) as (e1 & _ & Hroute).
    destruct (Page_fetchWeatherOpenMeteo_success Hm Hf) as (e2 & _ & Hpage).
    split; eexists; eexists; (split; [eassumption|]); cbn;
      rewrite Hcode; reflexivity.
Qed.

Lemma conditions_always_defined_witness :
  let host := serving (found paris) (Returned (ok200 emptyForecast)) in
  exists w log,
    run (Route.getWeatherForCity host (lit "Paris"))
    = (Returned (Route.ok_true w), log)
    /\ conditions (current w) = Some (lit "Unknown conditions").
Proof.
  cbv zeta.
  destruct (@conditions_always_defined Z
              (serving (found paris) (Returned (ok200 emptyForecast)))
              (lit "Paris")) as (_ & _ & _ & _ & Homitted).
  apply (Homitted paris emptyForecast).
  - apply found_matches with (encoded := lit "Paris");
      [discriminate|reflexivity].
  - apply served_forecast.
  - reflexivity.
Defined.

(** ** Unit defaults *)

Section Units.

Context {number : Type} (host : Host number).

(** What an absent piece of unit metadata looks like. *)
Lemma units_omitted (fc : OpenMeteoForecastResponse number) :
  fc_current_units fc = None ->
  fc_current_units fc ?. @unit_temperature_2m = None
  /\ fc_current_units fc ?. @unit_wind_speed_10m = None.
Proof. intros ->. split; reflexivity. Qed.

(** The page defaults the units to the Celsius symbol and to km/h. *)
Lemma Page_units_default (city : jsstring)
    (best : GeocodingResult number)
    (fc : OpenMeteoForecastResponse number) :
  geocodingMatch host city best -> forecastAnswers host best fc ->
  exists w log,
    run (Page.fetchWeatherOpenMeteo host city) = (Returned (weather w), log)
    /\ (fc_current_units fc ?. @unit_temperature_2m = None ->
        temperatureUnit (current w) = Some degreeCelsius)
    /\ (fc_current_units fc ?. @unit_wind_speed_10m = None ->
        windSpeedUnit (current w) = Some (lit "km/h")).
Proof.
  intros Hm Hf.
  destruct (Page_fetchWeatherOpenMeteo_success Hm Hf) as (e & _ & Hpage).
  eexists; eexists; (split; [eassumption|]); cbn.
  split; intros ->; reflexivity.
Qed.

(** The route defaults the wind unit to km/h, and the temperature unit
    to the three characters U+00C2 U+00B0 C. *)
Lemma Route_units_default (city : jsstring)
    (best : GeocodingResult number)
    (fc : OpenMeteoForecastResponse number) :
  geocodingMatch host city best -> forecastAnswers host best fc ->
  exists w log,
    run (Route.getWeatherForCity host city)
    = (Returned (Route.ok_true w), log)
    /\ (fc_current_units fc ?. @unit_temperature_2m = None ->
        temperatureUnit (current w) = Some [194; 176; 67]%N)
    /\ (fc_current_units fc ?. @unit_wind_speed_10m = None ->
        windSpeedUnit (current w) = Some (lit "km/h")).
Proof.
  intros Hm Hf.
  destruct (Route_getWeatherForCity_success Hm Hf) as (e & _ & Hroute).
  eexists; eexists; (split; [eassumption|]); cbn.
  split; intros ->; reflexivity.
Qed.

End Units.

(** C2, on the code: for the city "Paris", a geocoding match and a
    forecast response without [current_units], the route's
    [getWeatherForCity] returns a success result whose
    [current.temperatureUnit] is the three characters U+00C2 U+00B0 C,
    which is not the Celsius symbol (U+00B0 C); its
    [current.windSpeedUnit] is "km/h".  The composer of the page, on the
    same input, gives the Celsius symbol and "km/h". *)
Theorem route_temperature_unit_default_is_not_celsius :
  let host := serving (found paris) (Returned (ok200 unitlessForecast)) in
  fc_current_units unitlessForecast = None
  /\ (exists w log,
         run (Route.getWeatherForCity host (lit "Paris"))
         = (Returned (Route.ok_true w), log)
         /\ temperatureUnit (current w) = Some [194; 176; 67]%N
         /\ temperatureUnit (current w) <> Some degreeCelsius
         /\ windSpeedUnit (current w) = Some (lit "km/h"))
  /\ (exists w log,
         run (Page.fetchWeatherOpenMeteo host (lit "Paris"))
         = (Returned (weather w), log)
         /\ temperatureUnit (current w) = Some degreeCelsius
         /\ windSpeedUnit (current w) = Some (lit "km/h")).
Proof.
  cbv zeta. split; [reflexivity|]. split.
  - eexists. eexists. split; [vm_compute; reflexivity|].
    split; [reflexivity|]. split; [discriminate|reflexivity].
  - eexists. eexists. split; [vm_compute; reflexivity|].
    split; reflexivity.
Qed.

(** C10: a success result may be partially populated.  For every city
    with a geocoding match and a successful forecast call, whatever the
    forecast body holds, both composers return a success result in which
    [current.time], [current.temperature], [current.windSpeed],
    [current.weatherCode], [today.date], [today.high], [today.low] and
    [today.precipitationChance] are the upstream values, absent when the
    forecast response omits them, while [current.temperatureUnit],
    [current.windSpeedUnit], [current.conditions],
    [today.precipitationChanceUnit], [query], [source] and the
    coordinates of the location are always there. *)
Theorem success_result_is_partially_populated
    (number : Type) (host : Host number) (city : jsstring)
    (best : GeocodingResult number)
    (fc : OpenMeteoForecastResponse number) :
  geocodingMatch host city best -> forecastAnswers host best fc ->
  let shaped (w : Weather number) :=
    (cur_time (current w) = fc_current fc ?. @time _
     /\ temperature (current w) = fc_current fc ?. @temperature_2m _
     /\ windSpeed (current w) = fc_current fc ?. @wind_speed_10m _
     /\ weatherCode (current w) = fc_current fc ?. @weather_code _
     /\ date (today w) = first (fc_daily fc ?. @daily_time _)
     /\ high (today w) = first (fc_daily fc ?. @temperature_2m_max _)
     /\ low (today w) = first (fc_daily fc ?. @temperature_2m_min _)
     /\ precipitationChance (today w)
        = first (fc_daily fc ?. @precipitation_probability_max _))
    /\ (fc_current fc = None ->
        cur_time (current w) = None /\ temperature (current w) = None
        /\ windSpeed (current w) = None /\ weatherCode (current w) = None)
    /\ (fc_daily fc = None ->
        date (today w) = None /\ high (today w) = None
        /\ low (today w) = None /\ precipitationChance (today w) = None)
    /\ ((exists unit, temperatureUnit (current w) = Some unit)
        /\ (exists unit, windSpeedUnit (current w) = Some unit)
        /\ (exists text, conditions (current w) = Some text)
        /\ precipitationChanceUnit (today w) = Some (lit "%")
        /\ query w = trim city
        /\ source w = lit "Open-Meteo (no API key)"
        /\ loc_latitude (location w) = latitude best
        /\ loc_longitude (location w) = longitude best) in
  (exists w log,
      run (Route.getWeatherForCity host city)
      = (Returned (Route.ok_true w), log) /\ shaped w)
  /\ (exists w log,
         run (Page.fetchWeatherOpenMeteo host city)
         = (Returned (weather w), log) /\ shaped w).
Proof.
  intros Hm Hf. cbv zeta.
  destruct (Route_getWeatherForCity_success Hm Hf) as (e1 & _ & Hroute).
  destruct (Page_fetchWeatherOpenMeteo_success Hm Hf) as (e2 & _ & Hpage).
  split; eexists; eexists; (split; [eassumption|]); cbn;
    (split; [repeat split|]);
    (split; [intros ->; repeat split|]);
    (split; [intros ->; repeat split|]);
    repeat split; eexists; reflexivity.
Qed.

Lemma success_result_is_partially_populated_witness :
  let host := serving (found paris) (Returned (ok200 emptyForecast)) in
  exists w log,
    run (Page.fetchWeatherOpenMeteo host (lit "Paris"))
    = (Returned (weather w), log)
    /\ temperature (current w) = None
    /\ high (today w) = None
    /\ temperatureUnit (current w) = Some degreeCelsius.
Proof.
  cbv zeta.
  destruct (@success_result_is_partially_populated Z
              (serving (found paris) (Returned (ok200 emptyForecast)))
              (lit "Paris") paris emptyForecast)
    as (_ & w & log & Hrun & _ & Hcurrent & Hdaily & _).
  - apply found_matches with (encoded := lit "Paris");
      [discriminate|reflexivity].
  - apply served_forecast.
  - exists w, log. split; [exact Hrun|].
    split; [apply (Hcurrent eq_refl)|].
    split; [apply (Hdaily eq_refl)|].
    vm_compute in Hrun. injection Hrun as <- _. reflexivity.
Defined.

(** ** Sample runs *)

(** The tool on "Paris", with a forecast that has no unit metadata. *)
Example get_weather_paris :
  run (Route.get_weather
         (serving (found paris) (Returned (ok200 unitlessForecast)))
         (lit " Paris "))
  = (Returned
       {| Route.content :=
            [join [10%N]
               [lit "Weather for Paris, Ile-de-France, France";
                lit "Now: 21" ++ [194; 176; 67]%N ++ lit " (Partly cloudy)";
                lit "Today: H 24" ++ [194; 176; 67]%N
                ++ lit " / L 13" ++ [194; 176; 67]%N;
                lit "Precip chance: 40%"]];
          Route.structuredContent :=
            weather
              (weatherOf [194; 176; 67]%N (lit "Paris") paris
                         unitlessForecast);
          Route._meta := Route.widgetMeta Route.weatherWidget |},
     [geocodingUrl (lit "Paris"); forecastUrl (lit "49") (lit "2")]).
Proof. vm_compute. reflexivity. Qed.

(** The tool when the geocoder answers 503: the message of
    [fetchJsonOrThrow] reaches the payload. *)
Example get_weather_geocoder_down :
  run (Route.get_weather
         (serving (Returned (failure 503 (lit "busy")))
                  (Returned (ok200 fullForecast)))
         (lit "Paris, France"))
  = (let error :=
       lit "Request failed (503) for "
       ++ geocodingUrl (lit "Paris%2C%20France") ++ lit ": busy" in
     (Returned
        {| Route.content := [error];
           Route.structuredContent :=
             weather_error (lit "Paris, France") error;
           Route._meta := Route.widgetMeta Route.weatherWidget |},
      [geocodingUrl (lit "Paris%2C%20France")])).
Proof. vm_compute. reflexivity. Qed.

(** A lone surrogate in the city: [encodeURIComponent] throws, the page
    reports it and fetches nothing. *)
Example fetchWeatherOpenMeteo_lone_surrogate :
  run (Page.fetchWeatherOpenMeteo
         (serving (found paris) (Returned (ok200 fullForecast)))
         [55357%N])
  = (Returned (weather_error [55357%N] (lit "URI malformed")), []).
Proof. vm_compute. reflexivity. Qed.

(** The page when the network is down for the forecast call. *)
Example fetchWeatherOpenMeteo_forecast_rejected :
  run (Page.fetchWeatherOpenMeteo
         (serving (found paris) (Threw (ErrorObject (lit "Failed to fetch"))))
         (lit "Paris"))
  = (Returned (weather_error (lit "Paris") (lit "Failed to fetch")),
     [geocodingUrl (lit "Paris"); forecastUrl (lit "49") (lit "2")]).
Proof. vm_compute. reflexivity. Qed.

(** * Further properties of the code *)

(** ** Trimming *)

Lemma blank_app (a b : jsstring) :
  blank (a ++ b) = blank a && blank b.
Proof. unfold blank. apply forallb_app. Qed.

Lemma blank_rev (s : jsstring) : blank (rev s) = blank s.
Proof.
  induction s as [|c s IH]; [reflexivity|].
  simpl rev. rewrite blank_app, IH. simpl.
  rewrite andb_true_r. apply andb_comm.
Qed.

Lemma trimStart_split (s : jsstring) :
  exists pre, s = pre ++ trimStart s /\ blank pre = true.
Proof.
  induction s as [|c s (pre & Hs & Hpre)]; simpl.
  - exists []. split; reflexivity.
  - destruct (isWhiteSpace c) eqn:Hc.
    + exists (c :: pre). simpl. rewrite Hc, Hpre.
      split; [f_equal; exact Hs|reflexivity].
    + exists []. split; reflexivity.
Qed.

Lemma trimEnd_split (s : jsstring) :
  exists post, s = trimEnd s ++ post /\ blank post = true.
Proof.
  destruct (trimStart_split (rev s)) as (pre & Hs & Hpre).
  exists (rev pre). split.
  - unfold trimEnd. rewrite <- rev_app_distr, <- Hs, rev_involutive.
    reflexivity.
  - rewrite blank_rev. exact Hpre.
Qed.

(** The trimmed text sits in the input between two blank strings. *)
Lemma trim_split (s : jsstring) :
  exists pre post,
    s = pre ++ trim s ++ post /\ blank pre = true /\ blank post = true.
Proof.
  destruct (trimStart_split s) as (pre & Hs & Hpre).
  destruct (trimEnd_split (trimStart s)) as (post & Ht & Hpost).
  exists pre, post. unfold trim.
  rewrite <- Ht. auto.
Qed.

Lemma trimStart_fixed (s : jsstring) :
  match s with [] => True | c :: _ => isWhiteSpace c = false end ->
  trimStart s = s.
Proof. destruct s as [|c s]; simpl; [reflexivity|intros ->; reflexivity]. Qed.

Lemma trim_head (s : jsstring) :
  match trim s with [] => True | c :: _ => isWhiteSpace c = false end.
Proof.
  unfold trim.
  destruct (trimEnd_split (trimStart s)) as (post & Ht & _).
  pose proof (trimStart_head s) as Hh. rewrite Ht in Hh.
  destruct (trimEnd (trimStart s)); [exact I|exact Hh].
Qed.

Lemma trim_last (s : jsstring) :
  match rev (trim s) with [] => True | c :: _ => isWhiteSpace c = false end.
Proof.
  unfold trim, trimEnd. rewrite rev_involutive. apply trimStart_head.
Qed.

Lemma trim_idempotent (s : jsstring) : trim (trim s) = trim s.
Proof.
  unfold trim at 1.
  rewrite (trimStart_fixed _ (trim_head s)).
  unfold trimEnd.
  rewrite (trimStart_fixed _ (trim_last s)).
  apply rev_involutive.
Qed.

Lemma blank_iff_trim_nil (s : jsstring) : blank s = true <-> trim s = [].
Proof. split; [apply trim_blank|apply trim_nil_blank]. Qed.

(** X1: the [query] of every success result, of the route and of the
    page, is the input without its leading and trailing white space: it
    is not empty, the input is the query between two blank strings, its
    first and last code units are not white space, and trimming it again
    changes nothing. *)
Theorem success_query_is_the_trimmed_city
    (number : Type) (host : Host number) (city : jsstring)
    (w : Weather number) (log : list jsstring) :
  run (Route.getWeatherForCity host city) = (Returned (Route.ok_true w), log)
  \/ run (Page.fetchWeatherOpenMeteo host city) = (Returned (weather w), log)
  ->
  query w <> []
  /\ (exists pre post,
         city = pre ++ query w ++ post
         /\ blank pre = true /\ blank post = true)
  /\ (forall c rest, query w = c :: rest -> isWhiteSpace c = false)
  /\ (forall c rest, rev (query w) = c :: rest -> isWhiteSpace c = false)
  /\ trim (query w) = query w.
Proof.
  intros Hrun.
  assert (Hq : query w = trim city /\ trim city <> []).
  { destruct Hrun as [Hrun|Hrun].
    - apply Route_getWeatherForCity_success_inv in Hrun.
      destruct Hrun as (best & fc & (geo & more & (Hne & _) & _) & _ & ->).
      split; [reflexivity|exact Hne].
    - apply Page_fetchWeatherOpenMeteo_success_inv in Hrun.
      destruct Hrun as (best & fc & (geo & more & (Hne & _) & _) & _ & ->).
      split; [reflexivity|exact Hne]. }
  destruct Hq as [-> Hne].
  split; [exact Hne|].
  split; [apply trim_split|].
  split; [|split].
  - intros c rest Hc. pose proof (trim_head city) as Hh.
    rewrite Hc in Hh. exact Hh.
  - intros c rest Hc. pose proof (trim_last city) as Hl.
    rewrite Hc in Hl. exact Hl.
  - apply trim_idempotent.
Qed.

Lemma success_query_is_the_trimmed_city_witness :
  exists pre post,
    lit "  Paris " = pre ++ lit "Paris" ++ post
    /\ blank pre = true /\ blank post = true.
Proof.
  assert (Hrun :
            run (Page.fetchWeatherOpenMeteo
                   (serving (found paris) (Returned (ok200 fullForecast)))
                   (lit "  Paris "))
            = (Returned
                 (weather (weatherOf degreeCelsius (lit "Paris") paris
                                     fullForecast)),
               [geocodingUrl (lit "Paris"); forecastUrl (lit "49") (lit "2")]))
    by (vm_compute; reflexivity).
  destruct (success_query_is_the_trimmed_city _ _ (or_intror Hrun))
    as (_ & Hsplit & _).
  exact Hsplit.
Defined.

(** ** The outbound calls of a composer *)

Ltac close_scenario :=
  repeat match goal with
         | H : falsy _ = false |- _ => apply falsy_false_inv in H
         | H : negb _ = false |- _ => apply negb_false_iff in H
         | H : negb _ = true |- _ => apply negb_true_iff in H
         | H : first _ = Some _ |- _ =>
           apply first_some_inv in H; destruct H as [? H]
         end;
  unfold geocodingMatch, geocodingAnswers, forecastUrlOf.

(** X2: for every city and whatever the upstream services answer, the
    tool handler of the route and the composer of the page issue the very
    same outbound calls, in the same order. *)
Theorem composers_issue_the_same_calls
    (number : Type) (host : Host number) (city : jsstring) :
  snd (run (Route.get_weather host city))
  = snd (run (Page.fetchWeatherOpenMeteo host city)).
Proof.
  unfold_composers. cbn. split_run; reflexivity.
Qed.

(** X3: a composer issues at most two calls, the geocoding call first:
    its log is empty, or the geocoding URL of the escaped trimmed city
    alone, or that URL followed by the forecast URL of the coordinates of
    the first geocoding match.  The forecast is never requested without a
    match. *)
Theorem calls_are_geocoding_then_forecast
    (number : Type) (host : Host number) (city : jsstring) :
  let ordered (log : list jsstring) :=
    log = []
    \/ exists encoded,
        trim city <> []
        /\ encodeURIComponent (trim city) = Returned encoded
        /\ (log = [geocodingUrl encoded]
            \/ exists best,
                geocodingMatch host city best
                /\ log = [geocodingUrl encoded; forecastUrlOf host best]) in
  ordered (snd (run (Route.get_weather host city)))
  /\ ordered (snd (run (Page.fetchWeatherOpenMeteo host city))).
Proof.
  cbv zeta. split.
  - unfold_composers. cbn. split_run; cbn; auto;
      right; close_scenario; eexists; (split; [eassumption|]);
      (split; [reflexivity|]); auto; right; eexists; split; eauto 12.
  - unfold_composers. cbn. split_run; cbn; auto;
      right; close_scenario; eexists; (split; [eassumption|]);
      (split; [reflexivity|]); auto; right; eexists; split; eauto 12.
Qed.

(** X4: a composer issues no call at all exactly when the city is blank
    or [encodeURIComponent] throws on the trimmed city (a lone
    surrogate). *)
Theorem no_call_iff_blank_or_malformed
    (number : Type) (host : Host number) (city : jsstring) :
  let silent :=
    blank city = true
    \/ exists e, encodeURIComponent (trim city) = Threw e in
  (snd (run (Route.get_weather host city)) = [] <-> silent)
  /\ (snd (run (Page.fetchWeatherOpenMeteo host city)) = [] <-> silent).
Proof.
  cbv zeta. split.
  - unfold_composers. cbn. split_run; cbn; split;
      try (intros H; discriminate H);
      try (intros _; reflexivity);
      try (intros _; left; apply blank_iff_trim_nil, falsy_nil; assumption);
      try (intros _; right; eexists; reflexivity);
      intros [Hb|(e0 & He)]; try discriminate He;
      apply blank_iff_trim_nil, falsy_nil in Hb; congruence.
  - unfold_composers. cbn. split_run; cbn; split;
      try (intros H; discriminate H);
      try (intros _; reflexivity);
      try (intros _; left; apply blank_iff_trim_nil, falsy_nil; assumption);
      try (intros _; right; eexists; reflexivity);
      intros [Hb|(e0 & He)]; try discriminate He;
      apply blank_iff_trim_nil, falsy_nil in Hb; congruence.
Qed.

(** X4, at a city that is a lone surrogate. *)
Lemma no_call_iff_blank_or_malformed_witness :
  snd (run (Page.fetchWeatherOpenMeteo
              (serving (found paris) (Returned (ok200 fullForecast)))
              [55357%N])) = [].
Proof.
  destruct (@no_call_iff_blank_or_malformed Z
              (serving (found paris) (Returned (ok200 fullForecast)))
              [55357%N]) as (_ & _ & Hsilent).
  apply Hsilent. right. exists URIError. reflexivity.
Defined.

(** ** Exceptions *)

(** X5: when [encodeURIComponent], a request or the reading of a JSON
    body throws, the composers report the thrown [Error]'s own message,
    and a fixed text when the thrown value is not an [Error]: "Failed to
    fetch weather for this city." on the route, "Failed to fetch
    weather." on the page.  The log holds the calls issued until then. *)
Theorem exceptions_surface_their_message
    (number : Type) (host : Host number) (city : jsstring) :
  let reported (e : thrown) (log : list jsstring) :=
    let routeError :=
      messageOr e (lit "Failed to fetch weather for this city.") in
    run (Route.get_weather host city)
    = (Returned
         {| Route.content := [routeError];
            Route.structuredContent := weather_error city routeError;
            Route._meta := Route.widgetMeta Route.weatherWidget |},
       log)
    /\ run (Page.fetchWeatherOpenMeteo host city)
       = (Returned
            (weather_error (trim city)
               (messageOr e (lit "Failed to fetch weather."))),
          log) in
  trim city <> [] ->
  (forall e, encodeURIComponent (trim city) = Threw e -> reported e [])
  /\ (forall encoded,
         encodeURIComponent (trim city) = Returned encoded ->
         (forall e,
             geocoding host (geocodingUrl encoded) = Threw e ->
             reported e [geocodingUrl encoded])
         /\ (forall res e,
                geocoding host (geocodingUrl encoded) = Returned res ->
                ok res = true -> json res = Threw e ->
                reported e [geocodingUrl encoded])
         /\ (forall best e,
                geocodingMatch host city best ->
                forecast host (forecastUrlOf host best) = Threw e ->
                reported e [geocodingUrl encoded; forecastUrlOf host best])
         /\ (forall best res e,
                geocodingMatch host city best ->
                forecast host (forecastUrlOf host best) = Returned res ->
                ok res = true -> json res = Threw e ->
                reported e [geocodingUrl encoded; forecastUrlOf host best])).
Proof.
  cbv zeta. intros Hne. apply falsy_nonempty in Hne.
  split; [|intros encoded Henc; split; [|split; [|split]]];
    intros; open_scenario;
    repeat match goal with
           | H : Returned _ = Returned _ |- _ => injection H as H; subst
           | H1 : ?x = Returned _, H2 : ?x = Returned _ |- _ =>
             rewrite H1 in H2
           end;
    split; run_composers; reflexivity.
Qed.

Lemma exceptions_surface_their_message_witness :
  run (Page.fetchWeatherOpenMeteo
         (serving (Threw NotAnError) (Returned (ok200 fullForecast)))
         (lit "Paris"))
  = (Returned (weather_error (lit "Paris") (lit "Failed to fetch weather.")),
     [geocodingUrl (lit "Paris")]).
Proof.
  destruct (@exceptions_surface_their_message Z
              (serving (Threw NotAnError) (Returned (ok200 fullForecast)))
              (lit "Paris")) as (_ & Hcalls); [discriminate|].
  destruct (Hcalls (lit "Paris") eq_refl) as (Hgeo & _).
  destruct (Hgeo NotAnError eq_refl) as (_ & Hpage).
  exact Hpage.
Defined.

(** ** The two composers side by side *)

(** X6: the route and the page succeed on the same cities.  Their success
    results carry the same query, source, location, today and current
    fields, except for [current.temperatureUnit] when the forecast has no
    temperature unit: there the route gives the characters U+00C2 U+00B0
    C and the page the Celsius symbol. *)
Theorem composers_agree_on_success
    (number : Type) (host : Host number) (city : jsstring) :
  let alike (r p : Weather number) :=
    query p = query r /\ source p = source r
    /\ location p = location r /\ today p = today r
    /\ cur_time (current p) = cur_time (current r)
    /\ temperature (current p) = temperature (current r)
    /\ windSpeed (current p) = windSpeed (current r)
    /\ windSpeedUnit (current p) = windSpeedUnit (current r)
    /\ weatherCode (current p) = weatherCode (current r)
    /\ conditions (current p) = conditions (current r)
    /\ (temperatureUnit (current p) = temperatureUnit (current r)
        \/ (temperatureUnit (current r) = Some [194; 176; 67]%N
            /\ temperatureUnit (current p) = Some degreeCelsius)) in
  (forall r log,
      run (Route.getWeatherForCity host city)
      = (Returned (Route.ok_true r), log) ->
      exists p,
        run (Page.fetchWeatherOpenMeteo host city)
        = (Returned (weather p), log) /\ alike r p)
  /\ (forall p log,
         run (Page.fetchWeatherOpenMeteo host city)
         = (Returned (weather p), log) ->
         exists r,
           run (Route.getWeatherForCity host city)
           = (Returned (Route.ok_true r), log) /\ alike r p).
Proof.
  cbv zeta. split.
  - intros r log Hrun.
    pose proof (Route_getWeatherForCity_success_inv _ _ Hrun)
      as (best & fc & Hm & Hf & ->).
    destruct (Route_getWeatherForCity_success Hm Hf) as (e1 & He1 & Hr).
    destruct (Page_fetchWeatherOpenMeteo_success Hm Hf) as (e2 & He2 & Hp).
    rewrite He1 in He2. injection He2 as <-.
    rewrite Hrun in Hr. injection Hr as ->.
    eexists. split; [exact Hp|]. cbn.
    repeat (split; [reflexivity|]).
    unfold nullish.
    destruct (fc_current_units fc ?. @unit_temperature_2m); auto.
  - intros p log Hrun.
    pose proof (Page_fetchWeatherOpenMeteo_success_inv _ _ Hrun)
      as (best & fc & Hm & Hf & ->).
    destruct (Route_getWeatherForCity_success Hm Hf) as (e1 & He1 & Hr).
    destruct (Page_fetchWeatherOpenMeteo_success Hm Hf) as (e2 & He2 & Hp).
    rewrite He1 in He2. injection He2 as <-.
    rewrite Hrun in Hp. injection Hp as ->.
    eexists. split; [exact Hr|]. cbn.
    repeat (split; [reflexivity|]).
    unfold nullish.
    destruct (fc_current_units fc ?. @unit_temperature_2m); auto.
Qed.

Lemma composers_agree_on_success_witness :
  exists p,
    run (Page.fetchWeatherOpenMeteo
           (serving (found paris) (Returned (ok200 unitlessForecast)))
           (lit "Paris"))
    = (Returned (weather p),
       [geocodingUrl (lit "Paris"); forecastUrl (lit "49") (lit "2")])
    /\ temperatureUnit (current p) = Some degreeCelsius.
Proof.
  assert (Hrun :
            run (Route.getWeatherForCity
                   (serving (found paris) (Returned (ok200 unitlessForecast)))
                   (lit "Paris"))
            = (Returned
                 (Route.ok_true
                    (weatherOf [194; 176; 67]%N (lit "Paris") paris
                               unitlessForecast)),
               [geocodingUrl (lit "Paris"); forecastUrl (lit "49") (lit "2")]))
    by (vm_compute; reflexivity).
  destruct (@composers_agree_on_success Z
              (serving (found paris) (Returned (ok200 unitlessForecast)))
              (lit "Paris")) as (Hroute & _).
  destruct (Hroute _ _ Hrun) as (p & Hp & Halike).
  exists p. split; [exact Hp|].
  decompose [and] Halike.
  match goal with
  | H : _ \/ _ |- _ => destruct H as [H|[_ H]]; [|exact H]
  end.
  vm_compute in Hp. injection Hp as <-. reflexivity.
Defined.

(** ** The text summary of the tool *)

(** X7: on success the text of the [get_weather] result is a list of
    parts joined by line feeds.  The first part is "Weather for" and the
    location label.  When the forecast has a current temperature the
    next part is "Now:", the rounded temperature, the temperature unit of
    the result and the translated conditions in parentheses.  Only when
    the forecast has both today's high and today's low, a part "Today: H
    ... / L ..." follows with the two rounded values and the unit.  When
    the forecast has a chance of precipitation the last part is "Precip
    chance:", the rounded value and a percent sign.  There is no other
    part, and the structured content is the data of [getWeatherForCity],
    unchanged. *)
Theorem summary_has_a_part_per_available_piece
    (number : Type) (host : Host number) (city : jsstring)
    (best : GeocodingResult number)
    (fc : OpenMeteoForecastResponse number) :
  geocodingMatch host city best -> forecastAnswers host best fc ->
  let rounded n := toString host (Math_round host n) in
  let unit :=
    nullish (fc_current_units fc ?. @unit_temperature_2m)
            [194; 176; 67]%N in
  let parts :=
    [lit "Weather for " ++ labelOf best]
    ++ match fc_current fc ?. @temperature_2m _ with
       | Some t =>
         [lit "Now: " ++ rounded t ++ unit ++ lit " ("
          ++ Route.wmoWeatherCodeToText (fc_current fc ?. @weather_code _)
          ++ lit ")"]
       | None => []
       end
    ++ match first (fc_daily fc ?. @temperature_2m_max _),
             first (fc_daily fc ?. @temperature_2m_min _) with
       | Some h, Some l =>
         [lit "Today: H " ++ rounded h ++ unit
          ++ lit " / L " ++ rounded l ++ unit]
       | _, _ => []
       end
    ++ match first (fc_daily fc ?. @precipitation_probability_max _) with
       | Some p => [lit "Precip chance: " ++ rounded p ++ lit "%"]
       | None => []
       end in
  exists log,
    run (Route.get_weather host city)
    = (Returned
         {| Route.content := [join [10%N] parts];
            Route.structuredContent :=
              weather (weatherOf [194; 176; 67]%N (trim city) best fc);
            Route._meta := Route.widgetMeta Route.weatherWidget |},
       log).
Proof.
  intros Hm Hf. cbv zeta. open_scenario.
  unfold weatherOf, currentOf, todayOf, locationOf, labelOf.
  run_composers. unfold template, nullish.
  destruct (fc_current fc ?. @temperature_2m _);
    destruct (first (fc_daily fc ?. @temperature_2m_max _));
    destruct (first (fc_daily fc ?. @temperature_2m_min _));
    destruct (first (fc_daily fc ?. @precipitation_probability_max _));
    eexists; reflexivity.
Qed.

Lemma summary_has_a_part_per_available_piece_witness :
  exists log,
    run (Route.get_weather
           (serving (found paris) (Returned (ok200 fullForecast)))
           (lit "Paris"))
    = (Returned
         {| Route.content :=
              [join [10%N]
                 [lit "Weather for Paris, Ile-de-France, France";
                  lit "Now: 21F (Partly cloudy)";
                  lit "Today: H 24F / L 13F";
                  lit "Precip chance: 40%"]];
            Route.structuredContent :=
              weather
                (weatherOf [194; 176; 67]%N (lit "Paris") paris
                           fullForecast);
            Route._meta := Route.widgetMeta Route.weatherWidget |},
       log).
Proof.
  apply (@summary_has_a_part_per_available_piece Z
           (serving (found paris) (Returned (ok200 fullForecast)))
           (lit "Paris") paris fullForecast).
  - apply found_matches with (encoded := lit "Paris");
      [discriminate|reflexivity].
  - apply served_forecast.
Defined.

(** ** The geocoding URL *)

Lemma unreserved_digit (c : N) :
  (48 <= c <= 57)%N -> unreserved c = true.
Proof.
  intros [H1 H2]. unfold unreserved.
  apply N.leb_le in H1. apply N.leb_le in H2. rewrite H1, H2. cbn.
  rewrite orb_true_r. reflexivity.
Qed.

Lemma unreserved_upper (c : N) :
  (65 <= c <= 90)%N -> unreserved c = true.
Proof.
  intros [H1 H2]. unfold unreserved.
  apply N.leb_le in H1. apply N.leb_le in H2. rewrite H1, H2.
  reflexivity.
Qed.

Lemma hexDigit_unreserved (d : N) :
  (d < 16)%N -> unreserved (hexDigit d) = true.
Proof.
  intros Hd. unfold hexDigit.
  destruct (N.ltb_spec d 10).
  - apply unreserved_digit. lia.
  - apply unreserved_upper. lia.
Qed.

Lemma percent_urlSafe (byte : N) :
  (byte < 256)%N -> forallb urlSafe (percent byte) = true.
Proof.
  intros Hb. unfold percent, urlSafe. cbn [forallb].
  rewrite !hexDigit_unreserved.
  - reflexivity.
  - apply N.mod_lt. discriminate.
  - apply N.Div0.div_lt_upper_bound. exact Hb.
Qed.

Lemma utf8_bytes (cp : N) :
  (cp < 1114112)%N -> Forall (fun byte => (byte < 256)%N) (utf8 cp).
Proof.
  intros Hcp. unfold utf8.
  assert (H64 : forall x, (x mod 64 < 64)%N)
    by (intros x; apply N.mod_lt; discriminate).
  destruct (N.ltb_spec cp 128); [repeat constructor; lia|].
  destruct (N.ltb_spec cp 2048).
  { assert (cp / 64 < 32)%N
      by (apply N.Div0.div_lt_upper_bound; exact H0).
    pose proof (H64 cp). repeat constructor; lia. }
  destruct (N.ltb_spec cp 65536).
  { assert (cp / 4096 < 16)%N
      by (apply N.Div0.div_lt_upper_bound; exact H1).
    pose proof (H64 cp). pose proof (H64 (cp / 64)%N).
    repeat constructor; lia. }
  assert (cp / 262144 < 5)%N
    by (apply N.Div0.div_lt_upper_bound; lia).
  pose proof (H64 cp). pose proof (H64 (cp / 64)%N).
  pose proof (H64 (cp / 4096)%N).
  repeat constructor; lia.
Qed.

Lemma escapes_urlSafe (cp : N) :
  (cp < 1114112)%N -> forallb urlSafe (flat_map percent (utf8 cp)) = true.
Proof.
  intros Hcp. pose proof (utf8_bytes Hcp) as Hbytes.
  induction Hbytes as [|byte bytes Hb _ IH]; [reflexivity|].
  cbn [flat_map]. rewrite forallb_app, IH, (percent_urlSafe Hb).
  reflexivity.
Qed.

Lemma prepend_inv (p : jsstring) (c : completion jsstring) (e : jsstring) :
  prepend p c = Returned e -> exists e', c = Returned e' /\ e = p ++ e'.
Proof.
  destruct c as [e'|x]; cbn; intros H; [|discriminate H].
  injection H as <-. exists e'. split; reflexivity.
Qed.

Lemma encodeURIComponent_cons (c : N) (rest : jsstring) :
  encodeURIComponent (c :: rest)
  = if unreserved c then prepend [c] (encodeURIComponent rest)
    else if ((c <? 55296) || (57343 <? c))%N then
      prepend (flat_map percent (utf8 c)) (encodeURIComponent rest)
    else if (56320 <=? c)%N then Threw URIError
    else
      match rest with
      | d :: rest' =>
        if ((56320 <=? d) && (d <=? 57343))%N then
          prepend
            (flat_map percent
               (utf8 (65536 + (c - 55296) * 1024 + (d - 56320))%N))
            (encodeURIComponent rest')
        else Threw URIError
      | [] => Threw URIError
      end.
Proof. reflexivity. Qed.

(** What [encodeURIComponent] returns is made of unreserved characters
    and percent signs only. *)
Lemma encodeURIComponent_urlSafe (s e : jsstring) :
  forallb codeUnit s = true ->
  encodeURIComponent s = Returned e -> forallb urlSafe e = true.
Proof.
  remember (List.length s) as n eqn:Hn. revert s e Hn.
  induction n as [n IH] using lt_wf_ind. intros s e Hn Hs Henc.
  destruct s as [|c rest].
  - change (encodeURIComponent []) with (Returned (@nil N)) in Henc.
    injection Henc as <-. reflexivity.
  - rewrite encodeURIComponent_cons in Henc. cbn in Hs. apply andb_true_iff in Hs. destruct Hs as [Hc Hrest].
    apply N.ltb_lt in Hc. cbn in Hn.
    destruct (unreserved c) eqn:Hu.
    + apply prepend_inv in Henc. destruct Henc as (e' & He' & ->).
      cbn. unfold urlSafe at 1. rewrite Hu. cbn.
      apply (IH (List.length rest)) with (s := rest); [lia|reflexivity| |];
        assumption.
    + destruct ((c <? 55296) || (57343 <? c))%N eqn:Hbmp.
      * apply prepend_inv in Henc. destruct Henc as (e' & He' & ->).
        rewrite forallb_app, escapes_urlSafe by lia.
        apply (IH (List.length rest)) with (s := rest); [lia|reflexivity| |];
          assumption.
      * destruct (56320 <=? c)%N eqn:Hhigh; [discriminate Henc|].
        apply N.leb_gt in Hhigh.
        destruct rest as [|d rest']; [discriminate Henc|].
        destruct ((56320 <=? d) && (d <=? 57343))%N eqn:Hd;
          [|discriminate Henc].
        apply prepend_inv in Henc. destruct Henc as (e' & He' & ->).
        cbn in Hrest. apply andb_true_iff in Hrest.
        destruct Hrest as [_ Hrest'].
        apply orb_false_iff in Hbmp. destruct Hbmp as [Hlo Hhi].
        apply N.ltb_ge in Hlo. apply N.ltb_ge in Hhi.
        apply andb_true_iff in Hd. destruct Hd as [Hd1 Hd2].
        apply N.leb_le in Hd1. apply N.leb_le in Hd2.
        rewrite forallb_app, escapes_urlSafe by lia.
        apply (IH (List.length rest')) with (s := rest');
          [cbn in Hn; lia|reflexivity| |]; assumption.
Qed.

Lemma first_call_is_geocoding
    (number : Type) (host : Host number) (city url : jsstring)
    (more : list jsstring) :
  snd (run (Route.get_weather host city)) = url :: more
  \/ snd (run (Page.fetchWeatherOpenMeteo host city)) = url :: more ->
  exists encoded,
    encodeURIComponent (trim city) = Returned encoded
    /\ url = geocodingUrl encoded.
Proof.
  intros [H|H]; revert H; unfold_composers; cbn; split_run; cbn;
    intros H; try discriminate H; injection H as <- _;
    eexists; split; reflexivity.
Qed.

Lemma trim_codeUnits (s : jsstring) :
  forallb codeUnit s = true -> forallb codeUnit (trim s) = true.
Proof.
  destruct (trim_split s) as (pre & post & Hs & _).
  intros H. rewrite Hs, !forallb_app in H.
  apply andb_true_iff in H. destruct H as [_ H].
  apply andb_true_iff in H. destruct H as [H _]. exact H.
Qed.

(** X8: the city reaches the geocoding service in escaped form only.
    For a city made of UTF-16 code units, the first URL a composer
    fetches is the geocoding URL around [encodeURIComponent] of the
    trimmed city, which consists of unreserved characters and percent
    signs: it holds no ampersand, equals sign, hash, question mark,
    slash, space, plus or double quote, so the city cannot add or end a
    parameter of the URL. *)
Theorem geocoding_url_carries_the_city_escaped
    (number : Type) (host : Host number) (city url : jsstring)
    (more : list jsstring) :
  forallb codeUnit city = true ->
  snd (run (Route.get_weather host city)) = url :: more
  \/ snd (run (Page.fetchWeatherOpenMeteo host city)) = url :: more ->
  exists encoded,
    encodeURIComponent (trim city) = Returned encoded
    /\ url
       = lit "https://geocoding-api.open-meteo.com/v1/search?name="
         ++ encoded ++ lit "&count=1&language=en&format=json"
    /\ forallb urlSafe encoded = true
    /\ forall c, In c [38; 61; 35; 63; 47; 32; 43; 34]%N -> ~ In c encoded.
Proof.
  intros Hcity Hlog.
  destruct (@first_call_is_geocoding number host city url more Hlog)
    as (encoded & Henc & ->).
  exists encoded. split; [exact Henc|]. split; [reflexivity|].
  pose proof (@encodeURIComponent_urlSafe (trim city) encoded
                (@trim_codeUnits city Hcity) Henc) as Hsafe.
  split; [exact Hsafe|].
  intros c Hc Hin.
  pose proof (proj1 (forallb_forall urlSafe encoded) Hsafe c Hin) as Hs.
  repeat destruct Hc as [<-|Hc]; try discriminate Hs. destruct Hc.
Qed.

Lemma geocoding_url_carries_the_city_escaped_witness :
  exists encoded,
    encodeURIComponent (trim (lit "Paris & Co")) = Returned encoded
    /\ geocodingUrl (lit "Paris%20%26%20Co")
       = lit "https://geocoding-api.open-meteo.com/v1/search?name="
         ++ encoded ++ lit "&count=1&language=en&format=json"
    /\ forallb urlSafe encoded = true
    /\ forall c, In c [38; 61; 35; 63; 47; 32; 43; 34]%N -> ~ In c encoded.
Proof.
  apply (@geocoding_url_carries_the_city_escaped Z
           (serving notFound (Returned (ok200 fullForecast)))
           (lit "Paris & Co") (geocodingUrl (lit "Paris%20%26%20Co")) []).
  - reflexivity.
  - left. vm_compute. reflexivity.
Defined.

(** ** Reading the tool output in the widget *)

Lemma jsstring_eqb_refl (s : jsstring) : jsstring_eqb s s = true.
Proof.
  induction s as [|c s IH]; [reflexivity|].
  cbn. rewrite N.eqb_refl. exact IH.
Qed.

Arguments tagged : simpl never.

Section Extraction.

Context {number : Type} (isZeroOrNaN : number -> bool).

(** X9: [extractWeatherStructuredContent] returns the first of
    [toolOutput.result.structuredContent], [toolOutput.structuredContent]
    and [toolOutput] itself whose [kind] is "weather" or "weather_error",
    in this order, so a nested payload wins over the tag of the outer
    object; it returns [undefined] when the tool output is falsy or none
    of the three carries such a kind, whatever else they hold.  What it
    returns is always an object. *)
Theorem extract_returns_the_first_tagged_candidate (toolOutput : value number) :
  let nested :=
    optProp (optProp toolOutput (lit "result")) (lit "structuredContent") in
  let direct := optProp toolOutput (lit "structuredContent") in
  let extracted :=
    Page.extractWeatherStructuredContent isZeroOrNaN toolOutput in
  (tagged nested = true -> extracted = Some nested)
  /\ (tagged nested = false -> tagged direct = true ->
      extracted = Some direct)
  /\ (tagged nested = false -> tagged direct = false ->
      tagged toolOutput = true -> extracted = Some toolOutput)
  /\ (extracted = None <->
      truthy isZeroOrNaN toolOutput = false
      \/ (tagged nested = false /\ tagged direct = false
          /\ tagged toolOutput = false))
  /\ (forall c, extracted = Some c ->
      tagged c = true /\ exists props, c = VObject props).
Proof.
  cbv zeta.
  assert (Hobj : forall c : value number,
             tagged c = true -> exists props, c = VObject props).
  { intros c Hc. destruct c; try discriminate Hc. eexists. reflexivity. }
  assert (Htruthy : forall c : value number,
             tagged c = true -> truthy isZeroOrNaN c = true).
  { intros c Hc. destruct (Hobj c Hc) as (props & ->). reflexivity. }
  assert (Hnested :
            tagged (optProp (optProp toolOutput (lit "result"))
                            (lit "structuredContent")) = true ->
            truthy isZeroOrNaN toolOutput = true).
  { intros Hc. destruct toolOutput; try discriminate Hc. reflexivity. }
  assert (Hdirect :
            tagged (optProp toolOutput (lit "structuredContent")) = true ->
            truthy isZeroOrNaN toolOutput = true).
  { intros Hc. destruct toolOutput; try discriminate Hc. reflexivity. }
  unfold Page.extractWeatherStructuredContent.
  change (fun c : value number =>
            isString (optProp c (lit "kind")) (lit "weather")
            || isString (optProp c (lit "kind")) (lit "weather_error"))
    with (@tagged number).
  cbn [find].
  repeat split.
  - intros H. rewrite (Hnested H). cbn. rewrite H. reflexivity.
  - intros H1 H2. rewrite (Hdirect H2). cbn. rewrite H1, H2. reflexivity.
  - intros H1 H2 H3. rewrite (Htruthy _ H3). cbn.
    rewrite H1, H2, H3. reflexivity.
  - destruct (truthy isZeroOrNaN toolOutput); cbn; [|auto].
    destruct (tagged (optProp (optProp toolOutput (lit "result"))
                              (lit "structuredContent")));
      [discriminate|].
    destruct (tagged (optProp toolOutput (lit "structuredContent")));
      [discriminate|].
    destruct (tagged toolOutput); [discriminate|]. auto.
  - intros [H|(H1 & H2 & H3)].
    + rewrite H. reflexivity.
    + destruct (truthy isZeroOrNaN toolOutput); cbn; [|reflexivity].
      rewrite H1, H2, H3. reflexivity.
  - destruct (truthy isZeroOrNaN toolOutput); cbn in H; [|discriminate H].
    destruct (tagged (optProp (optProp toolOutput (lit "result"))
                              (lit "structuredContent"))) eqn:E1;
      [injection H as <-; exact E1|].
    destruct (tagged (optProp toolOutput (lit "structuredContent"))) eqn:E2;
      [injection H as <-; exact E2|].
    destruct (tagged toolOutput) eqn:E3; [injection H as <-; exact E3|].
    discriminate H.
  - apply Hobj.
    destruct (truthy isZeroOrNaN toolOutput); cbn in H; [|discriminate H].
    destruct (tagged (optProp (optProp toolOutput (lit "result"))
                              (lit "structuredContent"))) eqn:E1;
      [injection H as <-; exact E1|].
    destruct (tagged (optProp toolOutput (lit "structuredContent"))) eqn:E2;
      [injection H as <-; exact E2|].
    destruct (tagged toolOutput) eqn:E3; [injection H as <-; exact E3|].
    discriminate H.
Qed.

(** X10: the widget recovers the structured content of every result of
    the [get_weather] handler, success or error, from each of the three
    shapes it looks at: the result wrapped under [result], the result
    itself, and the bare structured content. *)
Theorem extract_recovers_the_tool_payload
    (r : Route.CallToolResult (number := number)) :
  let payload := contentValue (Route.structuredContent r) in
  Page.extractWeatherStructuredContent isZeroOrNaN
    (VObject [(lit "result", resultValue r)]) = Some payload
  /\ Page.extractWeatherStructuredContent isZeroOrNaN (resultValue r)
     = Some payload
  /\ Page.extractWeatherStructuredContent isZeroOrNaN payload
     = Some payload.
Proof.
  destruct r as [text [w|q e] meta]; repeat split; reflexivity.
Qed.

End Extraction.

(** X9, on a tool output whose own kind is "weather_error" and that
    nests a "weather" payload. *)
Lemma extract_returns_the_first_tagged_candidate_witness :
  let inner : value Z := VObject [(lit "kind", VString (lit "weather"))] in
  Page.extractWeatherStructuredContent isZero
    (VObject [ (lit "kind", VString (lit "weather_error"));
               (lit "structuredContent", inner) ])
  = Some inner.
Proof.
  cbv zeta.
  destruct (extract_returns_the_first_tagged_candidate isZero
              (VObject
                 [ (lit "kind", VString (lit "weather_error"));
                   (lit "structuredContent",
                    VObject [(lit "kind", VString (lit "weather"))]) ]))
    as (_ & Hdirect & _).
  apply Hdirect; reflexivity.
Defined.

(** ** The weather card *)

Section Card.

Context {number : Type} (host : Host number).
Context {Date : Type} (newDate : jsstring -> Date)
        (isInvalid : Date -> bool) (toLocaleString : Date -> jsstring).

(** X11: the card of a success result.  For every city with a geocoding
    match and a successful forecast call, the card of either composer's
    result shows the location label, the translated conditions and the
    source, the rounded values followed by the units of the result, and
    an em dash for each value the forecast omits.  The card's own
    fallbacks for the units and the conditions never apply: when the
    forecast has no temperature unit, the temperatures of a result of the
    route are followed by the characters U+00C2 U+00B0 C, those of a
    result of the page by the Celsius symbol. *)
Theorem card_shows_the_units_of_the_result
    (city : jsstring) (best : GeocodingResult number)
    (fc : OpenMeteoForecastResponse number) :
  geocodingMatch host city best -> forecastAnswers host best fc ->
  let rounded n := toString host (Math_round host n) in
  let shown (degrees : jsstring) (w : Weather number) :=
    let unit :=
      nullish (fc_current_units fc ?. @unit_temperature_2m) degrees in
    exists texts,
      Page.WeatherCard host newDate isInvalid toLocaleString (weather w)
      = Page.weatherCard texts
      /\ Page.card_name texts = labelOf best
      /\ Page.card_conditions texts
         = Route.wmoWeatherCodeToText (fc_current fc ?. @weather_code _)
      /\ Page.card_temperature texts
         = match fc_current fc ?. @temperature_2m _ with
           | Some t => rounded t ++ unit
           | None => Page.emDash
           end
      /\ Page.card_wind texts
         = match fc_current fc ?. @wind_speed_10m _ with
           | Some v =>
             rounded v ++ lit " "
             ++ nullish (fc_current_units fc ?. @unit_wind_speed_10m)
                        (lit "km/h")
           | None => Page.emDash
           end
      /\ Page.card_high texts
         = match first (fc_daily fc ?. @temperature_2m_max _) with
           | Some h => rounded h ++ unit
           | None => Page.emDash
           end
      /\ Page.card_low texts
         = match first (fc_daily fc ?. @temperature_2m_min _) with
           | Some l => rounded l ++ unit
           | None => Page.emDash
           end
      /\ Page.card_rain texts
         = match first (fc_daily fc ?. @precipitation_probability_max _) with
           | Some p => rounded p ++ lit "%"
           | None => Page.emDash
           end
      /\ Page.card_footer texts = lit "Data from Open-Meteo (no API key)" in
  (exists w log,
      run (Route.getWeatherForCity host city)
      = (Returned (Route.ok_true w), log)
      /\ shown [194; 176; 67]%N w)
  /\ (exists w log,
         run (Page.fetchWeatherOpenMeteo host city)
         = (Returned (weather w), log)
         /\ shown degreeCelsius w).
Proof.
  intros Hm Hf. cbv zeta.
  destruct (Route_getWeatherForCity_success Hm Hf) as (e1 & _ & Hroute).
  destruct (Page_fetchWeatherOpenMeteo_success Hm Hf) as (e2 & _ & Hpage).
  split; eexists; eexists; (split; [eassumption|]);
    eexists; (split; [reflexivity|]); cbn; unfold nullish;
    destruct (fc_current fc ?. @temperature_2m _);
    destruct (fc_current fc ?. @wind_speed_10m _);
    destruct (first (fc_daily fc ?. @temperature_2m_max _));
    destruct (first (fc_daily fc ?. @temperature_2m_min _));
    destruct (first (fc_daily fc ?. @precipitation_probability_max _));
    repeat split; reflexivity.
Qed.

End Card.

Lemma card_shows_the_units_of_the_result_witness :
  exists w log texts,
    run (Route.getWeatherForCity
           (serving (found paris) (Returned (ok200 unitlessForecast)))
           (lit "Paris"))
    = (Returned (Route.ok_true w), log)
    /\ Page.WeatherCard
         (serving (found paris) (Returned (ok200 unitlessForecast)))
         (fun iso : jsstring => iso) falsy (fun d : jsstring => d)
         (weather w)
       = Page.weatherCard texts
    /\ Page.card_temperature texts = lit "21" ++ [194; 176; 67]%N.
Proof.
  destruct (@card_shows_the_units_of_the_result Z
              (serving (found paris) (Returned (ok200 unitlessForecast)))
              jsstring (fun iso : jsstring => iso) falsy
              (fun d : jsstring => d)
              (lit "Paris") paris unitlessForecast)
    as ((w & log & Hrun & texts & Hcard & _ & _ & Htemp & _) & _).
  - apply found_matches with (encoded := lit "Paris");
      [discriminate|reflexivity].
  - apply served_forecast.
  - exists w, log, texts. split; [exact Hrun|]. split; [exact Hcard|].
    exact Htemp.
Defined.

(** ** Requests from the page *)

Section Requests.

Context {number : Type} (host : Host number).

(** Past the blank check the page composer only reads the trimmed
    city. *)
Lemma Page_fetchWeatherOpenMeteo_trimmed (city : jsstring) :
  trim city <> [] ->
  run (Page.fetchWeatherOpenMeteo host (trim city))
  = run (Page.fetchWeatherOpenMeteo host city).
Proof.
  intros Hne. apply falsy_nonempty in Hne.
  unfold run, Page.fetchWeatherOpenMeteo.
  rewrite trim_idempotent, Hne. reflexivity.
Qed.

Lemma Page_result_query (city : jsstring)
    (c : WeatherStructuredContent number) (log : list jsstring) :
  trim city <> [] ->
  run (Page.fetchWeatherOpenMeteo host city) = (Returned c, log) ->
  Page.queryOf c = trim city.
Proof.
  intros Hne. apply falsy_nonempty in Hne.
  unfold_composers. cbn. rewrite Hne.
  split_run; intros H; try discriminate H; injection H as <- _;
    reflexivity.
Qed.

Lemma Route_result_query (city : jsstring)
    (r : Route.CallToolResult (number := number)) (log : list jsstring) :
  run (Route.get_weather host city) = (Returned r, log) ->
  Page.queryOf (Route.structuredContent r) = city
  \/ Page.queryOf (Route.structuredContent r) = trim city.
Proof.
  unfold_composers. cbn.
  split_run; intros H; try discriminate H; injection H as <- _; cbn; auto.
Qed.

Lemma nonblank_trim (s : jsstring) : blank s = false -> trim s <> [].
Proof.
  intros Hb Ht. apply blank_iff_trim_nil in Ht. congruence.
Qed.

Variable sendMessage : jsstring -> completion unit.

(** X12: with a blank input the search button is disabled, and
    [requestWeather] leaves the state as it is, fetches nothing and sends
    nothing, in the chat host and outside of it. *)
Theorem blank_request_does_nothing
    (isChatGptApp : bool) (st : Page.HomeState) :
  blank (Page.city st) = true ->
  Page.searchDisabled st = true
  /\ run (Page.requestWeather host isChatGptApp sendMessage st)
     = (Returned st, []).
Proof.
  intros Hb. apply trim_blank in Hb.
  unfold Page.searchDisabled, Page.requestWeather, run.
  rewrite Hb. split; reflexivity.
Qed.

(** X13: outside the chat host a request always settles with a result to
    show.  For an input that is not blank, [requestWeather] fetches what
    [fetchWeatherOpenMeteo] fetches for that input and ends with its
    result as the local weather, no pending city and no request error;
    the [query] of the result is the trimmed input.  No message is
    sent. *)
Theorem standalone_request_settles (st : Page.HomeState) :
  blank (Page.city st) = false ->
  exists c log,
    run (Page.fetchWeatherOpenMeteo host (Page.city st)) = (Returned c, log)
    /\ run (Page.requestWeather host false sendMessage st)
       = (Returned
            {| Page.localWeather := Some c;
               Page.city := Page.city st;
               Page.pendingCity := None;
               Page.requestError := None |},
          log)
    /\ Page.queryOf c = trim (Page.city st).
Proof.
  intros Hb. apply nonblank_trim in Hb.
  destruct (Page_fetchWeatherOpenMeteo_returns host (Page.city st))
    as (c & log & Hrun).
  exists c, log. split; [exact Hrun|]. split.
  - pose proof (Page_fetchWeatherOpenMeteo_trimmed (Page.city st) Hb) as Ht.
    rewrite Hrun in Ht. unfold run in Ht.
    unfold Page.requestWeather, run, catch, bind.
    rewrite (falsy_nonempty Hb), Ht. reflexivity.
  - exact (Page_result_query _ Hb Hrun).
Qed.

(** X14: in the chat host a request fetches nothing: for an input that is
    not blank, [requestWeather] sends one message, which quotes the
    trimmed input and names the [get_weather] tool, and clears the local
    weather.  When the host accepts the message the trimmed input stays
    pending and there is no error; when the host throws, nothing is
    pending and the request error is the thrown [Error]'s message, or
    "Failed to request weather." for another thrown value. *)
Theorem chat_request_sends_one_message (st : Page.HomeState) :
  blank (Page.city st) = false ->
  let trimmed := trim (Page.city st) in
  let message :=
    lit "Check the weather for " ++ dquote ++ trimmed ++ dquote
    ++ lit ". Use the get_weather tool with {" ++ dquote ++ lit "city"
    ++ dquote ++ lit ":" ++ dquote ++ Page.escapeQuotes trimmed ++ dquote
    ++ lit "} and show the result." in
  exists st',
    run (Page.requestWeather host true sendMessage st)
    = (Returned st', [message])
    /\ Page.localWeather st' = None
    /\ Page.city st' = Page.city st
    /\ (forall u, sendMessage message = Returned u ->
        Page.pendingCity st' = Some trimmed
        /\ Page.requestError st' = None)
    /\ (forall e, sendMessage message = Threw e ->
        Page.pendingCity st' = None
        /\ Page.requestError st'
           = Some (messageOr e (lit "Failed to request weather."))).
Proof.
  intros Hb. apply nonblank_trim in Hb. cbv zeta.
  unfold Page.requestWeather, run, catch, bind, Page.awaitSendMessage, ret.
  rewrite (falsy_nonempty Hb). unfold Page.requestMessage. cbn.
  destruct (sendMessage _) as [u|e] eqn:Hsend; eexists;
    (split; [reflexivity|]); cbn;
    (split; [reflexivity|]); (split; [reflexivity|]);
    split; intros x Hx; try discriminate Hx;
    try (injection Hx as <-); split; reflexivity.
Qed.

Variable toLowerCase : jsstring -> jsstring.

(** X15: the effect of the page clears the pending city once the tool
    output is a result of [get_weather] for that very text, success or
    error: the query of the result is then the pending city. *)
Theorem tool_result_clears_the_pending_city
    (st : Page.HomeState) (input : jsstring)
    (r : Route.CallToolResult (number := number)) (log : list jsstring) :
  Page.pendingCity st = Some (trim input) ->
  trim input <> [] ->
  run (Route.get_weather host (trim input)) = (Returned r, log) ->
  Page.queryOf (Route.structuredContent r) = trim input
  /\ Page.pendingEffect toLowerCase (Some (Route.structuredContent r)) st
     = Page.setPendingCity None st.
Proof.
  intros Hp Hne Hrun.
  assert (Hq : Page.queryOf (Route.structuredContent r) = trim input).
  { destruct (Route_result_query _ Hrun) as [H|H];
      [exact H|rewrite trim_idempotent in H; exact H]. }
  split; [exact Hq|].
  unfold Page.pendingEffect, Page.effectiveWeather, nullish_opt.
  rewrite Hp, (falsy_nonempty Hne). cbv beta iota.
  rewrite Hq, jsstring_eqb_refl. reflexivity.
Qed.

End Requests.

(** ** Escaping the city in the message *)

Lemma escapeQuotes_cons (c : N) (s : jsstring) :
  Page.escapeQuotes (c :: s)
  = (if (c =? 34)%N then [92; 34]%N else [c]) ++ Page.escapeQuotes s.
Proof. reflexivity. Qed.

(** X16: [replaceAll] of the double quotes.  In the escaped text every
    double quote comes right after a backslash, and the text has one
    more code unit per double quote; a text without double quotes is
    left as it is, backslashes included. *)
Theorem escaped_quotes_follow_a_backslash (s : jsstring) :
  (forall pre post,
      Page.escapeQuotes s = pre ++ 34%N :: post ->
      exists pre', pre = pre' ++ [92%N])
  /\ List.length (Page.escapeQuotes s)
     = List.length s + count_occ N.eq_dec s 34%N
  /\ (~ In 34%N s -> Page.escapeQuotes s = s).
Proof.
  split; [|split].
  - induction s as [|c s IH]; intros pre post H.
    + destruct pre; discriminate H.
    + rewrite escapeQuotes_cons in H.
      destruct (N.eqb_spec c 34) as [->|Hc].
      * destruct pre as [|x [|y pre]]; cbn in H.
        -- discriminate H.
        -- injection H as <- _. exists []. reflexivity.
        -- injection H as <- <- H.
           destruct (IH _ _ H) as (pre' & ->).
           exists (92 :: 34 :: pre')%N. reflexivity.
      * destruct pre as [|x pre]; cbn in H.
        -- injection H as H _. contradiction.
        -- injection H as <- H.
           destruct (IH _ _ H) as (pre' & ->).
           exists (c :: pre'). reflexivity.
  - induction s as [|c s IH]; [reflexivity|].
    rewrite escapeQuotes_cons, length_app, IH. cbn [count_occ List.length].
    destruct (N.eqb_spec c 34) as [->|Hc];
      destruct (N.eq_dec _ _); try congruence; cbn; lia.
  - induction s as [|c s IH]; intros Hn; [reflexivity|].
    rewrite escapeQuotes_cons.
    destruct (N.eqb_spec c 34) as [->|Hc].
    + exfalso. apply Hn. left. reflexivity.
    + cbn. f_equal. apply IH. intros Hin. apply Hn. right. exact Hin.
Qed.

Lemma escaped_quotes_follow_a_backslash_witness :
  Page.escapeQuotes [97; 92; 98]%N = [97; 92; 98]%N.
Proof.
  destruct (escaped_quotes_follow_a_backslash [97; 92; 98]%N)
    as (_ & _ & Hsame).
  apply Hsame. intros H. repeat destruct H as [H|H]; discriminate H || exact H.
Defined.

Lemma blank_request_does_nothing_witness :
  run (Page.requestWeather
         (serving (found paris) (Returned (ok200 fullForecast)))
         true accepts (typed [32; 9]%N))
  = (Returned (typed [32; 9]%N), []).
Proof.
  apply (@blank_request_does_nothing Z
           (serving (found paris) (Returned (ok200 fullForecast)))
           accepts true (typed [32; 9]%N)).
  reflexivity.
Defined.

Lemma standalone_request_settles_witness :
  exists c log,
    run (Page.fetchWeatherOpenMeteo
           (serving notFound (Returned (ok200 fullForecast)))
           (lit " Atlantis"))
    = (Returned c, log)
    /\ run (Page.requestWeather
              (serving notFound (Returned (ok200 fullForecast)))
              false refuses (typed (lit " Atlantis")))
       = (Returned
            {| Page.localWeather := Some c;
               Page.city := lit " Atlantis";
               Page.pendingCity := None;
               Page.requestError := None |},
          log)
    /\ Page.queryOf c = trim (lit " Atlantis").
Proof.
  apply (@standalone_request_settles Z
           (serving notFound (Returned (ok200 fullForecast)))
           refuses (typed (lit " Atlantis"))).
  reflexivity.
Defined.

Lemma chat_request_sends_one_message_witness :
  exists st' message,
    run (Page.requestWeather
           (serving (found paris) (Returned (ok200 fullForecast)))
           true refuses (typed (lit "Paris")))
    = (Returned st', [message])
    /\ Page.pendingCity st' = None
    /\ Page.requestError st' = Some (lit "host unavailable").
Proof.
  destruct (@chat_request_sends_one_message Z
              (serving (found paris) (Returned (ok200 fullForecast)))
              refuses (typed (lit "Paris")) eq_refl)
    as (st' & Hrun & _ & _ & _ & Hthrows).
  exists st'. eexists. split; [exact Hrun|].
  exact (Hthrows (ErrorObject (lit "host unavailable")) eq_refl).
Defined.

Lemma tool_result_clears_the_pending_city_witness :
  let host := serving notFound (Returned (ok200 fullForecast)) in
  let st : Page.HomeState (number := Z) :=
    {| Page.localWeather := None;
       Page.city := lit " Atlantis";
       Page.pendingCity := Some (lit "Atlantis");
       Page.requestError := None |} in
  let r :=
    {| Route.content := [notFoundMessage (lit "Atlantis")];
       Route.structuredContent :=
         weather_error (lit "Atlantis") (notFoundMessage (lit "Atlantis"));
       Route._meta := Route.widgetMeta Route.weatherWidget |} in
  run (Route.get_weather host (lit "Atlantis"))
  = (Returned r, [geocodingUrl (lit "Atlantis")])
  /\ Page.pendingEffect asciiLower (Some (Route.structuredContent r)) st
     = Page.setPendingCity None st.
Proof.
  cbv zeta.
  assert (Hrun :
            run (Route.get_weather
                   (serving notFound (Returned (ok200 fullForecast)))
                   (lit "Atlantis"))
            = (Returned
                 {| Route.content := [notFoundMessage (lit "Atlantis")];
                    Route.structuredContent :=
                      weather_error (lit "Atlantis")
                                    (notFoundMessage (lit "Atlantis"));
                    Route._meta := Route.widgetMeta Route.weatherWidget |},
               [geocodingUrl (lit "Atlantis")]))
    by (vm_compute; reflexivity).
  split; [exact Hrun|].
  refine (proj2 (@tool_result_clears_the_pending_city Z
                   (serving notFound (Returned (ok200 fullForecast)))
                   asciiLower
                   {| Page.localWeather := None;
                      Page.city := lit " Atlantis";
                      Page.pendingCity := Some (lit "Atlantis");
                      Page.requestError := None |}
                   (lit " Atlantis") _ _ eq_refl _ Hrun)).
  discriminate.
Defined.

(** ** The age predictor *)

Arguments AgePredictor.stringOf : simpl never.

Section Age.

Context {number : Type}.
Variable agify : jsstring -> completion (Response (value number)).
Variable numberToString : number -> jsstring.
Variable integerToString : Z -> jsstring.
Variable toUpperCase : jsstring -> jsstring.

(** X17: the [predict_age] handler has no error handling of its own.
    When [encodeURIComponent] throws on the name nothing is fetched and
    the exception escapes; otherwise the handler fetches one URL, and
    when the request throws, the body is not JSON, or the body is the
    JSON value [null], the exception escapes to the caller of the
    tool. *)
Theorem predict_age_lets_failures_escape (name : jsstring) :
  let outcome :=
    run (AgePredictor.predict_age agify numberToString integerToString
                                  toUpperCase name) in
  (forall e, encodeURIComponent name = Threw e -> outcome = (Threw e, []))
  /\ (forall encoded,
         encodeURIComponent name = Returned encoded ->
         let url := lit "https://api.agify.io/?name=" ++ encoded in
         snd outcome = [url]
         /\ (forall e, agify url = Threw e -> outcome = (Threw e, [url]))
         /\ (forall res e,
                agify url = Returned res -> json res = Threw e ->
                outcome = (Threw e, [url]))
         /\ (forall res,
                agify url = Returned res -> json res = Returned VNull ->
                exists message,
                  outcome = (Threw (ErrorObject message), [url]))).
Proof.
  cbv zeta.
  unfold run, AgePredictor.predict_age, AgePredictor.agifyUrl,
    bind, settle, fetch, ret.
  split.
  - intros e He. rewrite He. reflexivity.
  - intros encoded He. rewrite He. cbn.
    split; [|split; [|split]].
    + destruct (agify _) as [res|e]; [|reflexivity].
      destruct (json res) as [data|e]; [|reflexivity].
      destruct (AgePredictor.member data (lit "age")) as [found|e];
        [|reflexivity].
      destruct (AgePredictor.stringOf numberToString integerToString found);
        [|reflexivity].
      destruct (AgePredictor.member data (lit "count")); reflexivity.
    + intros e H. rewrite H. reflexivity.
    + intros res e H Hj. rewrite H, Hj. reflexivity.
    + intros res H Hj. rewrite H, Hj. cbn. eexists. reflexivity.
Qed.

(** X18: the [predict_age] handler never looks at the HTTP status.
    Whatever the status of the response, when its body is a JSON object
    the handler reads the [age] and [count] properties of the body as
    they are.  When the age prints as a text, the handler returns a
    prediction with that text and with the age and count in its
    structured content: the text reads "undefined years old" when the
    body has no [age] property and "null years old" when the age is
    [null].  When printing the age throws (an age object with an own
    [toString] property), the exception escapes. *)
Theorem predict_age_ignores_the_status
    (name encoded : jsstring) (res : Response (value number))
    (props : list (jsstring * value number)) :
  encodeURIComponent name = Returned encoded ->
  agify (lit "https://api.agify.io/?name=" ++ encoded) = Returned res ->
  json res = Returned (VObject props) ->
  let url := lit "https://api.agify.io/?name=" ++ encoded in
  let outcome :=
    run (AgePredictor.predict_age agify numberToString integerToString
                                  toUpperCase name) in
  let predicts (age : jsstring) :=
    exists r,
      outcome = (Returned r, [url])
      /\ AgePredictor.content r
         = [lit "I predict " ++ name ++ lit " is " ++ age
            ++ lit " years old."]
      /\ AgePredictor.age (AgePredictor.structuredContent r)
         = lookup props (lit "age")
      /\ AgePredictor.count (AgePredictor.structuredContent r)
         = lookup props (lit "count") in
  (forall printed,
      AgePredictor.stringOf numberToString integerToString
        (lookup props (lit "age")) = Returned printed ->
      predicts printed)
  /\ (lookup props (lit "age") = VUndefined -> predicts (lit "undefined"))
  /\ (lookup props (lit "age") = VNull -> predicts (lit "null"))
  /\ (forall text,
         lookup props (lit "age") = VString text -> predicts text)
  /\ (forall e,
         AgePredictor.stringOf numberToString integerToString
           (lookup props (lit "age")) = Threw e ->
         outcome = (Threw e, [url]))
  /\ (forall inner,
         lookup props (lit "age") = VObject inner ->
         AgePredictor.hasOwn inner (lit "toString") = true ->
         outcome = (Threw AgePredictor.notPrimitive, [url])).
Proof.
  intros He Hres Hjson. cbv zeta.
  assert (Hprints : forall printed,
             AgePredictor.stringOf numberToString integerToString
               (lookup props (lit "age")) = Returned printed ->
             exists r,
               run (AgePredictor.predict_age agify numberToString
                      integerToString toUpperCase name)
               = (Returned r, [lit "https://api.agify.io/?name=" ++ encoded])
               /\ AgePredictor.content r
                  = [lit "I predict " ++ name ++ lit " is " ++ printed
                     ++ lit " years old."]
               /\ AgePredictor.age (AgePredictor.structuredContent r)
                  = lookup props (lit "age")
               /\ AgePredictor.count (AgePredictor.structuredContent r)
                  = lookup props (lit "count")).
  { intros printed Hp.
    unfold run, AgePredictor.predict_age, AgePredictor.agifyUrl,
      bind, settle, fetch, ret.
    rewrite He. cbn. rewrite Hres, Hjson. cbn. rewrite Hp.
    eexists. repeat split. }
  assert (Hthrows : forall e,
             AgePredictor.stringOf numberToString integerToString
               (lookup props (lit "age")) = Threw e ->
             run (AgePredictor.predict_age agify numberToString
                    integerToString toUpperCase name)
             = (Threw e, [lit "https://api.agify.io/?name=" ++ encoded])).
  { intros e Hp.
    unfold run, AgePredictor.predict_age, AgePredictor.agifyUrl,
      bind, settle, fetch, ret.
    rewrite He. cbn. rewrite Hres, Hjson. cbn. rewrite Hp. reflexivity. }
  split; [exact Hprints|].
  split; [intros H; apply Hprints; rewrite H; reflexivity|].
  split; [intros H; apply Hprints; rewrite H; reflexivity|].
  split; [intros text H; apply Hprints; rewrite H; reflexivity|].
  split; [exact Hthrows|].
  intros inner H Hown. apply Hthrows. rewrite H.
  unfold AgePredictor.stringOf. rewrite Hown. reflexivity.
Qed.

End Age.

Lemma predict_age_lets_failures_escape_witness :
  run (AgePredictor.predict_age (number := Z)
         (fun _ => Threw (ErrorObject (lit "fetch failed")))
         Z_toString Z_toString asciiLower (lit "ada"))
  = (Threw (ErrorObject (lit "fetch failed")),
     [lit "https://api.agify.io/?name=" ++ lit "ada"]).
Proof.
  destruct (@predict_age_lets_failures_escape Z
              (fun _ => Threw (ErrorObject (lit "fetch failed")))
              Z_toString Z_toString asciiLower (lit "ada")) as (_ & Hcalls).
  destruct (Hcalls (lit "ada") eq_refl) as (_ & Hrejects & _).
  apply Hrejects. reflexivity.
Defined.

Lemma predict_age_ignores_the_status_witness :
  exists r,
    run (AgePredictor.predict_age (number := Z)
           (fun _ =>
              Returned
                {| status := 429;
                   text := Returned [];
                   json :=
                     Returned
                       (VObject
                          [(lit "error",
                            VString (lit "Request limit reached"))]) |})
           Z_toString Z_toString asciiLower (lit "ada"))
    = (Returned r, [lit "https://api.agify.io/?name=" ++ lit "ada"])
    /\ AgePredictor.content r
       = [lit "I predict ada is undefined years old."].
Proof.
  destruct (@predict_age_ignores_the_status Z
              (fun _ =>
                 Returned
                   {| status := 429;
                      text := Returned [];
                      json :=
                        Returned
                          (VObject
                             [(lit "error",
                               VString (lit "Request limit reached"))]) |})
              Z_toString Z_toString asciiLower (lit "ada") (lit "ada") _ _
              eq_refl eq_refl eq_refl)
    as (_ & Hmissing & _).
  destruct (Hmissing eq_refl) as (r & Hrun & Htext & _).
  exists r. split; [exact Hrun|exact Htext].
Defined.
